(** * django_jinja.backend: the Jinja2 template backend for Django

    A shallow embedding of [django_jinja/backend.py]: the [Template]
    wrapper, the [Jinja2] engine class and the [_setting_changed]
    receiver.  Python objects that are mutated in place (context
    mappings, lazy objects, engine instances, the [lru_cache] of
    [get_default]) live in an explicit store, the [World]; code that
    reads or writes them runs in a state-and-exception monad.  The host
    (Django, jinja2 and the sibling modules [base], [utils] and
    [builtins]) is a record of functions, [Host]. *)

From Stdlib Require Import Ascii.
From stdpp Require Import gmap strings list fin_maps.

Set Warnings "-register-all".
Open Scope string_scope.

(** ** Python values *)

Inductive PyVal : Type :=
| VNone
| VBool (b : bool)
| VStr (s : string)
| VTuple (items : list PyVal)
| VList (items : list PyVal)
| VDict (items : list (string * PyVal))
| VObj (qualname : string)   (* an opaque object, named by its import path *)
| VRequest (id : nat)        (* a django HttpRequest *)
| VLazy (cell : nat).        (* a SimpleLazyObject, by reference *)

(** [isinstance(v, six.string_types)] *)
Definition is_string (v : PyVal) : bool :=
  match v with VStr _ => true | _ => false end.

(** Python truthiness, as used by [if filters:] and [if self._debug:]. *)
Definition truthy (v : PyVal) : bool :=
  match v with
  | VNone => false
  | VBool b => b
  | VStr s => negb (String.eqb s "")
  | VTuple l | VList l => negb (Nat.eqb (length l) 0)
  | VDict l => negb (Nat.eqb (length l) 0)
  | VObj _ | VRequest _ | VLazy _ => true
  end.

(** The two classes of jinja2 the module names, and the third
    undefined type jinja2 ships next to them. *)
Definition jinja2_Undefined : PyVal := VObj "jinja2.Undefined".
Definition jinja2_DebugUndefined : PyVal := VObj "jinja2.DebugUndefined".
Definition jinja2_StrictUndefined : PyVal := VObj "jinja2.StrictUndefined".

(** ** Exceptions *)

Inductive ExcType : Type :=
| ImproperlyConfigured          (* django.core.exceptions *)
| TemplateDoesNotExist          (* django.template *)
| TemplateSyntaxError           (* django.template *)
| Jinja2_TemplateNotFound       (* jinja2 *)
| Jinja2_TemplateSyntaxError    (* jinja2 *)
| OtherError (name : string).

Record PyExc : Type := mkExc {
  exc_type : ExcType;
  exc_args : list PyVal;
  exc_tb : list string          (* the traceback: frames, innermost last *)
}.

Inductive Res (A : Type) : Type :=
| Ok (a : A)
| Raise (e : PyExc).
Arguments Ok {A} a.
Arguments Raise {A} e.

Definition is_raise {A} (r : Res A) : bool :=
  match r with Raise _ => true | Ok _ => false end.

Definition res_bind {A B} (r : Res A) (k : A -> Res B) : Res B :=
  match r with Ok a => k a | Raise e => Raise e end.

(** ** The objects of the module *)

(** A compiled jinja2 template: opaque, owned by the compiler. *)
Inductive Compiled : Type := CompiledTemplate (id : nat).

(** A jinja2 [Environment]: the options it was built from and the three
    name spaces the backend writes into. *)
Record Env : Type := mkEnv {
  env_cls : PyVal;
  env_options : gmap string PyVal;
  env_filters : gmap string PyVal;
  env_tests : gmap string PyVal;
  env_globals : gmap string PyVal
}.

(** An instance of [Jinja2]; [cp_cache] is the slot [cached_property]
    fills on the first read of [context_processors]. *)
Record Jinja2 : Type := mkJinja2 {
  app_dirname : PyVal;
  template_dirs : list string;
  tmpl_debug : PyVal;
  env : Env;
  _context_processors : PyVal;
  _match_regex : PyVal;
  _match_extension : PyVal;
  cp_cache : option (list PyVal)
}.

(** An instance of [Template]; [backend] is a reference to the engine. *)
Record Template : Type := mkTemplate {
  template : Compiled;
  backend : nat;
  _debug : PyVal
}.

(** A context object: a [dict], or a django [BaseContext] (seen flat). *)
Record CtxObj : Type := mkCtx {
  is_base_context : bool;
  ctx_items : gmap string PyVal
}.

(** A [SimpleLazyObject] wrapping the closure [_get_val] of [render]:
    the request the closure captured and the value once computed. *)
Record LazyObj : Type := mkLazy {
  lazy_request : nat;
  lazy_wrapped : option PyVal
}.

(** An entry of [django.template.engines.all()]. *)
Inductive EngineEntry : Type :=
| EJinja2 (ref : nat)           (* an instance of [Jinja2] *)
| EOther (name : string).       (* any other backend *)

(** What the module does to its collaborators. *)
Inductive Event : Type :=
| EvEnginesAll
| EvGetToken (request : nat)
| EvProcessor (processor : PyVal) (request : nat)
| EvTemplateRendered (sender tmpl : Template) (context : nat)
| EvEnvFromString (source : PyVal)
| EvEnvGetTemplate (name : PyVal)
| EvCompiledRender (c : Compiled) (context : gmap string PyVal).

Record World : Type := mkWorld {
  w_ctxs : gmap nat CtxObj;
  w_lazies : gmap nat LazyObj;
  w_engines : gmap nat Jinja2;
  w_registry : list EngineEntry;     (* the configured engines *)
  w_default_cache : option nat;      (* the lru_cache of get_default *)
  w_log : list Event                 (* newest first *)
}.

Definition set_ctxs (f : gmap nat CtxObj -> gmap nat CtxObj) (w : World) : World :=
  mkWorld (f (w_ctxs w)) (w_lazies w) (w_engines w) (w_registry w)
          (w_default_cache w) (w_log w).
Definition set_lazies (f : gmap nat LazyObj -> gmap nat LazyObj) (w : World) : World :=
  mkWorld (w_ctxs w) (f (w_lazies w)) (w_engines w) (w_registry w)
          (w_default_cache w) (w_log w).
Definition set_engines (f : gmap nat Jinja2 -> gmap nat Jinja2) (w : World) : World :=
  mkWorld (w_ctxs w) (w_lazies w) (f (w_engines w)) (w_registry w)
          (w_default_cache w) (w_log w).
Definition set_registry (r : list EngineEntry) (w : World) : World :=
  mkWorld (w_ctxs w) (w_lazies w) (w_engines w) r (w_default_cache w) (w_log w).
Definition set_default_cache (c : option nat) (w : World) : World :=
  mkWorld (w_ctxs w) (w_lazies w) (w_engines w) (w_registry w) c (w_log w).
Definition log_event (e : Event) (w : World) : World :=
  mkWorld (w_ctxs w) (w_lazies w) (w_engines w) (w_registry w)
          (w_default_cache w) (e :: w_log w).

Definition empty_world : World := mkWorld ∅ ∅ ∅ [] None [].

(** ** The monad: state, and exceptions that keep the state reached *)

Definition M (A : Type) : Type := World -> Res A * World.

Definition ret {A} (a : A) : M A := fun w => (Ok a, w).
Definition raise {A} (e : PyExc) : M A := fun w => (Raise e, w).
Definition bind {A B} (m : M A) (k : A -> M B) : M B :=
  fun w => match m w with
           | (Ok a, w') => k a w'
           | (Raise e, w') => (Raise e, w')
           end.
Definition lift {A} (r : Res A) : M A := fun w => (r, w).
Definition get_world : M World := fun w => (Ok w, w).
Definition modify (f : World -> World) : M unit := fun w => (Ok tt, f w).
Definition emit (e : Event) : M unit := modify (log_event e).

Notation "x <- m ;; k" := (bind m (fun x => k))
  (at level 63, m at next level, right associativity).
Notation "m ;;; k" := (bind m (fun _ => k))
  (at level 63, right associativity).
Notation "x <~ r ;; k" := (res_bind r (fun x => k))
  (at level 63, r at next level, right associativity).

(** ** The host *)

Record Host : Type := mkHost {
  settings_DEBUG : bool;
  settings_USE_I18N : bool;
  (* django.utils.module_loading.import_string, importlib.import_module *)
  import_string : string -> Res PyVal;
  import_module : string -> Res PyVal;
  (* sibling modules of the package *)
  BaseEngine_init : gmap string PyVal -> Res unit;
  BaseEngine_template_dirs : PyVal -> gmap string PyVal -> list string;
  utils_load_class : string -> Res PyVal;
  base_match_template : PyVal -> PyVal -> PyVal -> bool;
  base_initialize_thirdparty : Env -> Res Env;
  base_initialize_bytecode_cache : Env -> Res Env;
  builtins_DEFAULT_EXTENSIONS : PyVal;
  (* jinja2 *)
  FileSystemLoader : list string -> PyVal;
  environment_call : PyVal -> gmap string PyVal -> Res Env;
  install_gettext_translations : Env -> PyVal -> PyVal -> Res Env;
  install_null_translations : Env -> PyVal -> Res Env;
  env_from_string : Env -> PyVal -> Res Compiled;
  env_get_template : Env -> PyVal -> Res Compiled;
  compiled_render : Compiled -> gmap string PyVal -> Res PyVal;
  (* django.middleware.csrf.get_token, django.utils.encoding.smart_text *)
  get_token : nat -> option string;
  smart_text : string -> string;
  (* calling a context processor on a request *)
  call_processor : PyVal -> nat -> Res (gmap string PyVal)
}.

(** ** Jinja2.get_default and _setting_changed *)

Module Registry.

Definition is_Jinja2 (e : EngineEntry) : bool :=
  match e with EJinja2 _ => true | EOther _ => false end.

(** [[engine for engine in engines.all() if isinstance(engine, Jinja2)]] *)
Definition jinja_engines (all : list EngineEntry) : list nat :=
  omap (fun e => match e with EJinja2 r => Some r | EOther _ => None end) all.

Definition engines_all : M (list EngineEntry) :=
  emit EvEnginesAll ;;; w <- get_world ;; ret (w_registry w).

Definition no_backend : PyExc :=
  mkExc ImproperlyConfigured [VStr "No Jinja2 backend is configured."]
        ["get_default"].
Definition several_backends : PyExc :=
  mkExc ImproperlyConfigured
        [VStr "Several Jinja2 backends are configured. You must select one explicitly."]
        ["get_default"].

(** The body of [get_default], under the decorator. *)
Definition get_default_body : M nat :=
  all <- engines_all ;;
  let js := jinja_engines all in
  if Nat.eqb (length js) 1 then
    match js !! 0%nat with
    | Some e => ret e
    | None => raise (mkExc (OtherError "IndexError") [] ["get_default"])
    end
  else if Nat.eqb (length js) 0 then raise no_backend
  else raise several_backends.

(** [lru_cache] on a function without arguments: one slot, filled by a
    call that returns, left empty by a call that raises. *)
Definition get_default : M nat :=
  fun w =>
    match w_default_cache w with
    | Some e => (Ok e, w)
    | None =>
        match get_default_body w with
        | (Ok e, w') => (Ok e, set_default_cache (Some e) w')
        | (Raise x, w') => (Raise x, w')
        end
    end.

Definition cache_clear (w : World) : World := set_default_cache None w.

(** The receiver of [setting_changed]. *)
Definition _setting_changed (setting : string) (w : World) : World :=
  if String.eqb setting "TEMPLATES" then cache_clear w else w.

End Registry.

(** ** str() and repr() of the values (ASCII text) *)

Module PyText.

Definition hex_digit (n : nat) : ascii :=
  match n with
  | 0 => "0" | 1 => "1" | 2 => "2" | 3 => "3" | 4 => "4" | 5 => "5"
  | 6 => "6" | 7 => "7" | 8 => "8" | 9 => "9" | 10 => "a" | 11 => "b"
  | 12 => "c" | 13 => "d" | 14 => "e" | _ => "f"
  end%char.

Definition backslash : ascii := ascii_of_nat 92.
Definition single_quote : ascii := ascii_of_nat 39.
Definition double_quote : ascii := ascii_of_nat 34.

(** One character of a string literal delimited by [q]. *)
Definition repr_char (q c : ascii) : string :=
  let n := nat_of_ascii c in
  if Ascii.eqb c backslash then String backslash (String backslash "")
  else if Ascii.eqb c q then String backslash (String q "")
  else if Nat.eqb n 10 then String backslash "n"
  else if Nat.eqb n 13 then String backslash "r"
  else if Nat.eqb n 9 then String backslash "t"
  else if (n <? 32)%nat || (126 <? n)%nat
       then String backslash
              (String "x" (String (hex_digit (n / 16)) (String (hex_digit (n mod 16)) "")))
  else String c "".

Fixpoint contains_char (c : ascii) (s : string) : bool :=
  match s with
  | "" => false
  | String a s' => Ascii.eqb a c || contains_char c s'
  end.

Fixpoint repr_chars (q : ascii) (s : string) : string :=
  match s with
  | "" => ""
  | String c s' => repr_char q c +:+ repr_chars q s'
  end.

(** [repr] of a str: single quotes, unless the text has one and has no
    double quote. *)
Definition repr_str (s : string) : string :=
  let q := if contains_char single_quote s && negb (contains_char double_quote s)
           then double_quote else single_quote in
  String q (repr_chars q s +:+ String q "").

Fixpoint join (sep : string) (l : list string) : string :=
  match l with
  | [] => ""
  | [x] => x
  | x :: l' => x +:+ sep +:+ join sep l'
  end.

Fixpoint py_repr (v : PyVal) : string :=
  match v with
  | VNone => "None"
  | VBool true => "True"
  | VBool false => "False"
  | VStr s => repr_str s
  | VTuple l =>
      match l with
      | [x] => "(" +:+ py_repr x +:+ ",)"
      | _ => "(" +:+ join ", " (List.map py_repr l) +:+ ")"
      end
  | VList l => "[" +:+ join ", " (List.map py_repr l) +:+ "]"
  | VDict l =>
      "{" +:+ join ", " (List.map (fun kv => repr_str (fst kv) +:+ ": " +:+ py_repr (snd kv)) l)
          +:+ "}"
  | VObj n => "<" +:+ n +:+ ">"
  | VRequest _ => "<HttpRequest>"
  | VLazy _ => "<SimpleLazyObject>"
  end.

Definition py_str (v : PyVal) : string :=
  match v with
  | VStr s => s
  | _ => py_repr v
  end.

(** [str(exc)] of an exception that does not override [__str__]. *)
Definition exc_str (e : PyExc) : string :=
  match exc_args e with
  | [] => ""
  | [a] => py_str a
  | l => py_repr (VTuple l)
  end.

(** ["Template {} does not exists".format(name)] *)
Definition does_not_exist_message (name : PyVal) : string :=
  "Template " +:+ py_str name +:+ " does not exists".

End PyText.

(** ** The Jinja2 engine class *)

Module Engine.
Section WithHost.
Variable h : Host.

(** [d.pop(k, default)] and [d.setdefault(k, v)] on a dict of options. *)
Definition pop (k : string) (d : PyVal) (m : gmap string PyVal)
  : PyVal * gmap string PyVal :=
  (default d (m !! k), delete k m).

Definition setdefault (k : string) (v : PyVal) (m : gmap string PyVal)
  : gmap string PyVal :=
  match m !! k with
  | Some _ => m
  | None => <[k:=v]> m
  end.

Definition attribute_error (attr : string) : PyExc :=
  mkExc (OtherError "AttributeError") [VStr attr] [].
Definition type_error (what : string) : PyExc :=
  mkExc (OtherError "TypeError") [VStr what] [].

(** [v.copy()] of an options value: a dict has it. *)
Definition dict_copy (v : PyVal) : Res (gmap string PyVal) :=
  match v with
  | VDict l => Ok (list_to_map l)
  | _ => Raise (attribute_error "copy")
  end.

(** [v.items()] *)
Definition items (v : PyVal) : Res (list (string * PyVal)) :=
  match v with
  | VDict l => Ok l
  | _ => Raise (attribute_error "items")
  end.

(** [for x in v] *)
Fixpoint chars (s : string) : list PyVal :=
  match s with
  | "" => []
  | String c s' => VStr (String c "") :: chars s'
  end.

Definition py_iter (v : PyVal) : Res (list PyVal) :=
  match v with
  | VList l | VTuple l => Ok l
  | VDict l => Ok (List.map (fun kv => VStr (fst kv)) l)
  | VStr s => Ok (chars s)
  | _ => Raise (type_error "object is not iterable")
  end.

(** [import_string(v)], [import_module(v)] and [utils.load_class(v)] on
    a value: they split a str. *)
Definition py_import_string (v : PyVal) : Res PyVal :=
  match v with
  | VStr s => import_string h s
  | _ => Raise (attribute_error "rsplit")
  end.

Definition py_import_module (v : PyVal) : Res PyVal :=
  match v with
  | VStr s => import_module h s
  | _ => Raise (attribute_error "startswith")
  end.

(** *** _initialize_builtins *)

(** The inner function [insert(data, name, value)]. *)
Definition insert_builtin (data : gmap string PyVal) (name : string) (value : PyVal)
  : Res (gmap string PyVal) :=
  if is_string value
  then c <~ py_import_string value ;; Ok (<[name:=c]> data)
  else Ok (<[name:=value]> data).

(** [for name, value in table.items(): insert(data, name, value)] *)
Fixpoint insert_all (data : gmap string PyVal) (l : list (string * PyVal))
  : Res (gmap string PyVal) :=
  match l with
  | [] => Ok data
  | (name, value) :: l' => d <~ insert_builtin data name value ;; insert_all d l'
  end.

(** [for name, value in constants.items(): self.env.globals[name] = value] *)
Fixpoint assign_all (data : gmap string PyVal) (l : list (string * PyVal))
  : gmap string PyVal :=
  match l with
  | [] => data
  | (name, value) :: l' => assign_all (<[name:=value]> data) l'
  end.

Definition with_filters (e : Env) (d : gmap string PyVal) : Env :=
  mkEnv (env_cls e) (env_options e) d (env_tests e) (env_globals e).
Definition with_tests (e : Env) (d : gmap string PyVal) : Env :=
  mkEnv (env_cls e) (env_options e) (env_filters e) d (env_globals e).
Definition with_globals (e : Env) (d : gmap string PyVal) : Env :=
  mkEnv (env_cls e) (env_options e) (env_filters e) (env_tests e) d.

Definition _initialize_builtins (e : Env) (filters tests globals constants : PyVal)
  : Res Env :=
  e <~ (if truthy filters
        then l <~ items filters ;; d <~ insert_all (env_filters e) l ;;
             Ok (with_filters e d)
        else Ok e) ;;
  e <~ (if truthy tests
        then l <~ items tests ;; d <~ insert_all (env_tests e) l ;;
             Ok (with_tests e d)
        else Ok e) ;;
  e <~ (if truthy globals
        then l <~ items globals ;; d <~ insert_all (env_globals e) l ;;
             Ok (with_globals e d)
        else Ok e) ;;
  (if truthy constants
   then l <~ items constants ;; Ok (with_globals e (assign_all (env_globals e) l))
   else Ok e).

(** *** __init__ *)

(** The [undefined] option: lines 138-148. *)
Definition resolve_undefined (options : gmap string PyVal) : Res (gmap string PyVal) :=
  let '(undefined, options) := pop "undefined" VNone options in
  options <~ (match undefined with
              | VNone => Ok options
              | VStr s => c <~ utils_load_class h s ;; Ok (<["undefined":=c]> options)
              | _ => Ok (<["undefined":=undefined]> options)
              end) ;;
  Ok (if settings_DEBUG h
      then setdefault "undefined" jinja2_DebugUndefined options
      else setdefault "undefined" jinja2_Undefined options).

Definition __init__ (params : gmap string PyVal) : Res Jinja2 :=
  let '(options_v, params) := pop "OPTIONS" (VDict []) params in
  options <~ dict_copy options_v ;;
  let '(app_dirname, options) := pop "app_dirname" (VStr "templates") options in
  _ <~ BaseEngine_init h params ;;
  let '(newstyle_gettext, options) := pop "newstyle_gettext" (VBool true) options in
  let '(context_processors, options) := pop "context_processors" (VList []) options in
  let '(match_extension, options) := pop "match_extension" (VStr ".jinja") options in
  let '(match_regex, options) := pop "match_regex" VNone options in
  let '(environment_clspath, options) :=
    pop "environment" (VStr "jinja2.Environment") options in
  let '(extra_filters, options) := pop "filters" (VDict []) options in
  let '(extra_tests, options) := pop "tests" (VDict []) options in
  let '(extra_globals, options) := pop "globals" (VDict []) options in
  let '(extra_constants, options) := pop "constants" (VDict []) options in
  let '(translation_engine, options) :=
    pop "translation_engine" (VStr "django.utils.translation") options in
  let '(tmpl_debug, options) := pop "debug" (VBool false) options in
  options <~ resolve_undefined options ;;
  environment_cls <~ py_import_string environment_clspath ;;
  let dirs := BaseEngine_template_dirs h app_dirname params in
  let options := setdefault "loader" (FileSystemLoader h dirs) options in
  let options := setdefault "extensions" (builtins_DEFAULT_EXTENSIONS h) options in
  let options := setdefault "auto_reload" (VBool (settings_DEBUG h)) options in
  let options := setdefault "autoescape" (VBool true) options in
  env0 <~ environment_call h environment_cls options ;;
  env1 <~ (if settings_USE_I18N h
           then translation <~ py_import_module translation_engine ;;
                install_gettext_translations h env0 translation newstyle_gettext
           else install_null_translations h env0 newstyle_gettext) ;;
  env2 <~ _initialize_builtins env1 extra_filters extra_tests extra_globals
                               extra_constants ;;
  env3 <~ base_initialize_thirdparty h env2 ;;
  env4 <~ base_initialize_bytecode_cache h env3 ;;
  Ok (mkJinja2 app_dirname dirs tmpl_debug env4 context_processors match_regex
               match_extension None).

(** Constructing an engine: the instance is a new object of the store. *)
Definition new_engine (params : gmap string PyVal) : M nat :=
  self <- lift (__init__ params) ;;
  w <- get_world ;;
  let ref := fresh (dom (w_engines w)) in
  modify (set_engines <[ref:=self]>) ;;;
  ret ref.

Definition get_engine (ref : nat) : M Jinja2 :=
  w <- get_world ;;
  match w_engines w !! ref with
  | Some e => ret e
  | None => raise (mkExc (OtherError "ReferenceError") [] [])
  end.

(** *** The methods *)

Fixpoint import_all (paths : list PyVal) : Res (list PyVal) :=
  match paths with
  | [] => Ok []
  | p :: ps => c <~ py_import_string p ;; cs <~ import_all ps ;; Ok (c :: cs)
  end.

(** [context_processors], a [cached_property]: computed on the first
    read, then kept on the instance; a read that raises keeps nothing. *)
Definition context_processors (self : nat) : M (list PyVal) :=
  e <- get_engine self ;;
  match cp_cache e with
  | Some ps => ret ps
  | None =>
      paths <- lift (py_iter (_context_processors e)) ;;
      ps <- lift (import_all paths) ;;
      modify (set_engines
                <[self := mkJinja2 (app_dirname e) (template_dirs e) (tmpl_debug e)
                                   (env e) (_context_processors e) (_match_regex e)
                                   (_match_extension e) (Some ps)]>) ;;;
      ret ps
  end.

Definition match_extension (e : Jinja2) : PyVal := _match_extension e.

Definition from_string (self : nat) (template_code : PyVal) : M Template :=
  e <- get_engine self ;;
  emit (EvEnvFromString template_code) ;;;
  c <- lift (env_from_string h (env e) template_code) ;;
  ret (mkTemplate c self (VBool false)).

Definition match_template (e : Jinja2) (template_name : PyVal) : bool :=
  base_match_template h template_name (_match_regex e) (_match_extension e).

Definition get_template (self : nat) (template_name : PyVal) : M Template :=
  e <- get_engine self ;;
  if negb (match_template e template_name)
  then raise (mkExc TemplateDoesNotExist
                    [VStr (PyText.does_not_exist_message template_name)]
                    ["get_template"])
  else
    emit (EvEnvGetTemplate template_name) ;;;
    match env_get_template h (env e) template_name with
    | Ok c =>
        let t := mkTemplate c self (VBool false) in
        ret (mkTemplate (template t) (backend t) (tmpl_debug e))
    | Raise exc =>
        match exc_type exc with
        | Jinja2_TemplateNotFound =>
            raise (mkExc TemplateDoesNotExist [VTuple (exc_args exc)] (exc_tb exc))
        | Jinja2_TemplateSyntaxError =>
            raise (mkExc TemplateSyntaxError [VTuple (exc_args exc)] (exc_tb exc))
        | _ => raise exc
        end
    end.

End WithHost.
End Engine.

(** ** The Template wrapper *)

Module Wrapper.
Section WithHost.
Variable h : Host.

Definition dangling : PyExc := mkExc (OtherError "ReferenceError") [] [].

Definition alloc_ctx (o : CtxObj) : M nat :=
  fun w => let l := fresh (dom (w_ctxs w)) in (Ok l, set_ctxs <[l:=o]> w).

Definition read_ctx (l : nat) : M CtxObj :=
  fun w => match w_ctxs w !! l with
           | Some o => (Ok o, w)
           | None => (Raise dangling, w)
           end.

(** [context[k] = v], in place. *)
Definition ctx_setitem (l : nat) (k : string) (v : PyVal) : M unit :=
  o <- read_ctx l ;;
  modify (set_ctxs <[l := mkCtx (is_base_context o) (<[k:=v]> (ctx_items o))]>).

(** [context.update(d)], in place: the keys of [d] win. *)
Definition ctx_update (l : nat) (d : gmap string PyVal) : M unit :=
  o <- read_ctx l ;;
  modify (set_ctxs <[l := mkCtx (is_base_context o) (d ∪ ctx_items o)]>).

Definition alloc_lazy (o : LazyObj) : M nat :=
  fun w => let l := fresh (dom (w_lazies w)) in (Ok l, set_lazies <[l:=o]> w).

(** The closure [_get_val] of [render], for the request it captured. *)
Definition _get_val (request : nat) : M PyVal :=
  emit (EvGetToken request) ;;;
  match get_token h request with
  | None => ret (VStr "NOTPROVIDED")
  | Some token => ret (VStr (smart_text h token))
  end.

(** Reading through a [SimpleLazyObject]: the wrapped function runs on
    the first read and its value is kept. *)
Definition force (cell : nat) : M PyVal :=
  w <- get_world ;;
  match w_lazies w !! cell with
  | None => raise dangling
  | Some lz =>
      match lazy_wrapped lz with
      | Some v => ret v
      | None =>
          v <- _get_val (lazy_request lz) ;;
          modify (set_lazies <[cell := mkLazy (lazy_request lz) (Some v)]>) ;;;
          ret v
      end
  end.

(** What a reader of [context[k]] gets to see. *)
Definition read_key (ctx : gmap string PyVal) (k : string) : M PyVal :=
  match ctx !! k with
  | Some (VLazy cell) => force cell
  | Some v => ret v
  | None => raise (mkExc (OtherError "KeyError") [VStr k] [])
  end.

(** [for processor in ...: context.update(processor(request))] *)
Fixpoint run_processors (context : nat) (request : nat) (ps : list PyVal) : M unit :=
  match ps with
  | [] => ret tt
  | processor :: ps' =>
      emit (EvProcessor processor request) ;;;
      d <- lift (call_processor h processor request) ;;
      ctx_update context d ;;;
      run_processors context request ps'
  end.

(** Lines 47-63: the context the call works on, a reference. *)
Definition assemble (self : Template) (context : option nat) (request : option nat)
  : M nat :=
  context <- (match context with
              | None => alloc_ctx (mkCtx false ∅)
              | Some l => ret l
              end) ;;
  (match request with
   | Some req =>
       ctx_setitem context "request" (VRequest req) ;;;
       lz <- alloc_lazy (mkLazy req None) ;;
       ctx_setitem context "csrf_token" (VLazy lz) ;;;
       ps <- Engine.context_processors h (backend self) ;;
       run_processors context req ps
   | None => ret tt
   end) ;;;
  ret context.

(** Lines 65-83: the debug signal, on a [CompatibilityContext] copy
    unless the context is a [BaseContext] already.  Sending is the event
    [EvTemplateRendered]: what the receivers of the signal do with it
    (they run inside [send], may raise and may write to the context
    sent) is theirs and is not modelled. *)
Definition debug_signal (self : Template) (context : nat) : M nat :=
  if truthy (_debug self)
  then
    o <- read_ctx context ;;
    context' <- (if is_base_context o
                 then ret context
                 else alloc_ctx (mkCtx false (ctx_items o))) ;;
    emit (EvTemplateRendered self self context') ;;;
    ret context'
  else ret context.

Definition render (self : Template) (context : option nat) (request : option nat)
  : M PyVal :=
  context <- assemble self context request ;;
  context <- debug_signal self context ;;
  o <- read_ctx context ;;
  emit (EvCompiledRender (template self) (ctx_items o)) ;;;
  lift (compiled_render h (template self) (ctx_items o)).

End WithHost.
End Wrapper.

(** ** What an observer of a run can tell *)

(** The contributions of the processors, laid over a base mapping in
    the order of the calls. *)
Definition overlay (ds : list (gmap string PyVal)) (base : gmap string PyVal)
  : gmap string PyVal :=
  foldl (fun acc d => d ∪ acc) base ds.

(** The part of the log a loop over the processors [ps] writes. *)
Definition processor_events (request : nat) (ps : list PyVal) : list Event :=
  rev (List.map (fun p => EvProcessor p request) ps).

Definition is_signal (e : Event) : bool :=
  match e with EvTemplateRendered _ _ _ => true | _ => false end.
Definition is_get_token (e : Event) : bool :=
  match e with EvGetToken _ => true | _ => false end.
Definition is_processor_call (e : Event) : bool :=
  match e with EvProcessor _ _ => true | _ => false end.
Definition is_compiler_lookup (e : Event) : bool :=
  match e with EvEnvGetTemplate _ => true | _ => false end.

(** The events of one kind in a log. *)
Definition events (kind : Event -> bool) (w : World) : list Event :=
  List.filter kind (w_log w).

(** [m] keeps [R]: whatever the outcome, the world it ends in is
    related to the one it started from. *)
Definition keeps (R : World -> World -> Prop) {A} (m : M A) : Prop :=
  forall w r w', m w = (r, w') -> R w w'.

(** The events of one kind are left as they were. *)
Definition same_events (kind : Event -> bool) (w w' : World) : Prop :=
  events kind w' = events kind w.

(** The mapping a caller passed to [render]: his own, or none. *)
Definition caller_items (w : World) (context : option nat)
  : option (gmap string PyVal) :=
  match context with
  | None => Some ∅
  | Some l => ctx_items <$> w_ctxs w !! l
  end.

Definition is_compiled_render (e : Event) : bool :=
  match e with EvCompiledRender _ _ => true | _ => false end.

(** The value the processors' contributions give a key: that of the
    last contribution that has it. *)
Fixpoint latest (k : string) (ds : list (gmap string PyVal)) : option PyVal :=
  match ds with
  | [] => None
  | d :: ds' =>
      match latest k ds' with
      | Some v => Some v
      | None => d !! k
      end
  end.

(** What a read of [context_processors] evaluates to on an engine: the
    kept tuple, or the references of [_context_processors] resolved. *)
Definition resolved_processors (h : Host) (e : Jinja2) : Res (list PyVal) :=
  match cp_cache e with
  | Some ps => Ok ps
  | None => paths <~ Engine.py_iter (_context_processors e) ;; Engine.import_all h paths
  end.

(** The names a table given to [_initialize_builtins] binds. *)
Definition table_keys (table : PyVal) : list string :=
  match table with
  | VDict l => l.*1
  | _ => []
  end.

(** The options [__init__] pops for itself. *)
Definition consumed_options : list string :=
  ["app_dirname"; "newstyle_gettext"; "context_processors"; "match_extension";
   "match_regex"; "environment"; "filters"; "tests"; "globals"; "constants";
   "translation_engine"; "debug"].

(** The options [__init__] has not consumed when it comes to the
    [undefined] option: the dict without the keys popped so far. *)
Definition forwarded_options (options : gmap string PyVal) : gmap string PyVal :=
  delete "debug"
    (delete "translation_engine"
       (delete "constants"
          (delete "globals"
             (delete "tests"
                (delete "filters"
                   (delete "environment"
                      (delete "match_regex"
                         (delete "match_extension"
                            (delete "context_processors"
                               (delete "newstyle_gettext"
                                  (delete "app_dirname" options))))))))))).

(** The class [__init__] falls back on for the [undefined] option. *)
Definition default_undefined (h : Host) : PyVal :=
  if settings_DEBUG h then jinja2_DebugUndefined else jinja2_Undefined.

(** What [_get_val] computes for a request, event aside. *)
Definition token_value (h : Host) (request : nat) : PyVal :=
  match get_token h request with
  | None => VStr "NOTPROVIDED"
  | Some token => VStr (smart_text h token)
  end.

(** The three ways jinja2 treats a missing variable that is printed:
    [StrictUndefined] raises, [Undefined] prints nothing,
    [DebugUndefined] prints the expression back. *)
Inductive UndefinedPolicy : Type := Strict | Silent | DebugVerbose.

Definition policy_of (cls : PyVal) : option UndefinedPolicy :=
  match cls with
  | VObj "jinja2.StrictUndefined" => Some Strict
  | VObj "jinja2.Undefined" => Some Silent
  | VObj "jinja2.DebugUndefined" => Some DebugVerbose
  | _ => None
  end.

(** ** A concrete host, to run the code on *)

Module Sample.

Definition import_error (path : string) : PyExc :=
  mkExc (OtherError "ImportError") [VStr path] ["import_string"].

(** Every dotted path resolves, to the object of that name, but those
    under the package [missing]. *)
Definition resolve (path : string) : Res PyVal :=
  if String.prefix "missing." path then Raise (import_error path)
  else Ok (VObj path).

Fixpoint ends_with (suffix s : string) : bool :=
  String.eqb suffix s ||
  match s with
  | "" => false
  | String _ s' => ends_with suffix s'
  end.

(** Without a regex, a name matches by its extension. *)
Definition match_by_extension (name regex extension : PyVal) : bool :=
  match regex, name, extension with
  | VNone, VStr n, VStr e => ends_with e n
  | _, _, _ => false
  end.

Definition syntax_error : PyExc :=
  mkExc Jinja2_TemplateSyntaxError [VStr "unexpected end of template"]
        ["get_template"; "jinja2.environment"; "jinja2.parser"].

Definition lookup (e : Env) (name : PyVal) : Res Compiled :=
  match name with
  | VStr "broken.jinja" => Raise syntax_error
  | VStr "absent.jinja" =>
      Raise (mkExc Jinja2_TemplateNotFound [VStr "absent.jinja"]
                   ["get_template"; "jinja2.loaders"])
  | _ => Ok (CompiledTemplate 1)
  end.

(** Three context processors. *)
Definition processor (p : PyVal) (request : nat) : Res (gmap string PyVal) :=
  match p with
  | VObj "procs.user" => Ok {[ "user" := VStr "alice" ]}
  | VObj "procs.csrf" => Ok {[ "csrf_token" := VStr "X" ]}
  | _ => Ok ∅
  end.

Definition host (debug : bool) (token : option string) : Host :=
  {| settings_DEBUG := debug;
     settings_USE_I18N := false;
     import_string := resolve;
     import_module := resolve;
     BaseEngine_init := fun _ => Ok tt;
     BaseEngine_template_dirs := fun _ _ => ["/srv/templates"];
     utils_load_class := resolve;
     base_match_template := match_by_extension;
     base_initialize_thirdparty := Ok;
     base_initialize_bytecode_cache := Ok;
     builtins_DEFAULT_EXTENSIONS := VList [VStr "jinja2.ext.do"];
     FileSystemLoader := fun _ => VObj "jinja2.FileSystemLoader";
     environment_call := fun cls options => Ok (mkEnv cls options ∅ ∅ ∅);
     install_gettext_translations := fun e _ _ => Ok e;
     install_null_translations := fun e _ => Ok e;
     env_from_string := fun _ _ => Ok (CompiledTemplate 0);
     env_get_template := lookup;
     compiled_render := fun _ _ => Ok (VStr "<html>");
     get_token := fun _ => token;
     smart_text := fun s => s;
     call_processor := processor |}.

(** An engine with the given options. *)
Definition params (options : list (string * PyVal)) : gmap string PyVal :=
  {[ "OPTIONS" := VDict options ]}.

(** A store with one engine built from [options], at reference 0, and
    one dict holding [items], at reference 0 of the contexts. *)
Definition world (h : Host) (options : list (string * PyVal))
           (items : gmap string PyVal) : World :=
  snd ((Engine.new_engine h (params options) ;;;
        Wrapper.alloc_ctx (mkCtx false items)) empty_world).

(** A handle on a template of that engine. *)
Definition handle (debug : bool) : Template :=
  mkTemplate (CompiledTemplate 0) 0 (VBool debug).

(** The engine the sample hosts build when [DEBUG] is off and only the
    processors are given. *)
Definition engine (processors : PyVal) : Jinja2 :=
  mkJinja2 (VStr "templates") ["/srv/templates"] (VBool false)
    (mkEnv (VObj "jinja2.Environment")
       (<["autoescape" := VBool true]>
          (<["auto_reload" := VBool false]>
             (<["extensions" := VList [VStr "jinja2.ext.do"]]>
                (<["loader" := VObj "jinja2.FileSystemLoader"]>
                   (<["undefined" := jinja2_Undefined]> ∅)))))
       ∅ ∅ ∅)
    processors VNone (VStr ".jinja") None.

End Sample.

(** ** A host on which things go wrong *)

Module Faulty.

Definition broken : PyExc :=
  mkExc (OtherError "KeyError") [VStr "user"] ["render"; "procs.broken"].

(** The processors of [Sample], and one that raises. *)
Definition processor (p : PyVal) (request : nat) : Res (gmap string PyVal) :=
  match p with
  | VObj "procs.broken" => Raise broken
  | _ => Sample.processor p request
  end.

Definition not_found : PyExc :=
  mkExc Jinja2_TemplateNotFound [VStr "absent.jinja"]
        ["get_template"; "jinja2.loaders"].

Definition loader_error : PyExc :=
  mkExc (OtherError "OSError") [VStr "permission denied"] ["get_template"; "open"].

Definition lookup (e : Env) (name : PyVal) : Res Compiled :=
  match name with
  | VStr "locked.jinja" => Raise loader_error
  | _ => Sample.lookup e name
  end.

(** A compiler that cannot parse the source [{{]. *)
Definition compile (e : Env) (source : PyVal) : Res Compiled :=
  match source with
  | VStr "{{" => Raise Sample.syntax_error
  | _ => Ok (CompiledTemplate 0)
  end.

Definition host (i18n : bool) : Host :=
  let s := Sample.host false None in
  {| settings_DEBUG := settings_DEBUG s;
     settings_USE_I18N := i18n;
     import_string := import_string s;
     import_module := import_module s;
     BaseEngine_init := BaseEngine_init s;
     BaseEngine_template_dirs := BaseEngine_template_dirs s;
     utils_load_class := utils_load_class s;
     base_match_template := base_match_template s;
     base_initialize_thirdparty := base_initialize_thirdparty s;
     base_initialize_bytecode_cache := base_initialize_bytecode_cache s;
     builtins_DEFAULT_EXTENSIONS := builtins_DEFAULT_EXTENSIONS s;
     FileSystemLoader := FileSystemLoader s;
     environment_call := environment_call s;
     install_gettext_translations :=
       fun e translation _ => Ok (Engine.with_globals e (<["gettext" := translation]> (env_globals e)));
     install_null_translations := install_null_translations s;
     env_from_string := compile;
     env_get_template := lookup;
     compiled_render := compiled_render s;
     get_token := get_token s;
     smart_text := smart_text s;
     call_processor := processor |}.

(** A host on which no dotted path resolves. *)
Definition unresolving : Host :=
  let s := host false in
  {| settings_DEBUG := settings_DEBUG s;
     settings_USE_I18N := settings_USE_I18N s;
     import_string := fun path => Raise (Sample.import_error path);
     import_module := fun path => Raise (Sample.import_error path);
     BaseEngine_init := BaseEngine_init s;
     BaseEngine_template_dirs := BaseEngine_template_dirs s;
     utils_load_class := fun path => Raise (Sample.import_error path);
     base_match_template := base_match_template s;
     base_initialize_thirdparty := base_initialize_thirdparty s;
     base_initialize_bytecode_cache := base_initialize_bytecode_cache s;
     builtins_DEFAULT_EXTENSIONS := builtins_DEFAULT_EXTENSIONS s;
     FileSystemLoader := FileSystemLoader s;
     environment_call := environment_call s;
     install_gettext_translations := install_gettext_translations s;
     install_null_translations := install_null_translations s;
     env_from_string := env_from_string s;
     env_get_template := env_get_template s;
     compiled_render := compiled_render s;
     get_token := get_token s;
     smart_text := smart_text s;
     call_processor := call_processor s |}.

End Faulty.

(** * Properties *)

(** ** The engine registry *)

Section RegistryFacts.

Lemma get_default_cached (w : World) (e : nat) :
  w_default_cache w = Some e -> Registry.get_default w = (Ok e, w).
Proof. intros Hc. unfold Registry.get_default. now rewrite Hc. Qed.

Lemma get_default_one (w : World) (e : nat) :
  w_default_cache w = None ->
  Registry.jinja_engines (w_registry w) = [e] ->
  Registry.get_default w
  = (Ok e, set_default_cache (Some e) (log_event EvEnginesAll w)).
Proof.
  intros Hc Hjs. unfold Registry.get_default. rewrite Hc.
  unfold Registry.get_default_body, Registry.engines_all, bind, emit, modify,
    get_world, ret. simpl. now rewrite Hjs.
Qed.

Lemma get_default_none (w : World) :
  w_default_cache w = None ->
  Registry.jinja_engines (w_registry w) = [] ->
  Registry.get_default w = (Raise Registry.no_backend, log_event EvEnginesAll w).
Proof.
  intros Hc Hjs. unfold Registry.get_default. rewrite Hc.
  unfold Registry.get_default_body, Registry.engines_all, bind, emit, modify,
    get_world, ret. simpl. now rewrite Hjs.
Qed.

Lemma get_default_several (w : World) :
  w_default_cache w = None ->
  2 <= length (Registry.jinja_engines (w_registry w)) ->
  Registry.get_default w
  = (Raise Registry.several_backends, log_event EvEnginesAll w).
Proof.
  intros Hc Hlen. unfold Registry.get_default. rewrite Hc.
  unfold Registry.get_default_body, Registry.engines_all, bind, emit, modify,
    get_world, ret. simpl.
  destruct (Registry.jinja_engines (w_registry w)) as [|a [|b l]]; simpl in *;
    [lia | lia | reflexivity].
Qed.

(** The body scans the configured engines once and touches nothing else. *)
Lemma get_default_body_world (w : World) :
  snd (Registry.get_default_body w) = log_event EvEnginesAll w.
Proof.
  unfold Registry.get_default_body, Registry.engines_all, bind, emit, modify,
    get_world, ret, raise. simpl.
  repeat case_match; reflexivity.
Qed.

(** A call that returns leaves the slot filled with what it returned. *)
Lemma get_default_fills (w w' : World) (e : nat) :
  Registry.get_default w = (Ok e, w') -> w_default_cache w' = Some e.
Proof.
  unfold Registry.get_default. destruct (w_default_cache w) as [c|] eqn:Hc.
  - intros [= <- <-]. exact Hc.
  - destruct (Registry.get_default_body w) as [[a|x] w1]; intros [= <- <-];
      reflexivity.
Qed.

(** A call that raises leaves the slot as it was: empty. *)
Lemma get_default_raise_keeps (w w' : World) (x : PyExc) :
  Registry.get_default w = (Raise x, w') -> w_default_cache w' = None.
Proof.
  unfold Registry.get_default. destruct (w_default_cache w) as [c|] eqn:Hc.
  - discriminate.
  - pose proof (get_default_body_world w) as Hw.
    destruct (Registry.get_default_body w) as [[a|y] w1]; [discriminate |].
    intros [= <- <-]. simpl in Hw. subst w1. exact Hc.
Qed.

Lemma setting_changed_templates (w : World) :
  Registry._setting_changed "TEMPLATES" w = set_default_cache None w.
Proof. reflexivity. Qed.

Lemma setting_changed_other (setting : string) (w : World) :
  setting <> "TEMPLATES" -> Registry._setting_changed setting w = w.
Proof.
  intros Hne. unfold Registry._setting_changed.
  destruct (String.eqb_spec setting "TEMPLATES"); [contradiction | reflexivity].
Qed.

(** The filter, on registries of a known shape. *)
Lemma jinja_engines_others (l : list EngineEntry) :
  Forall (fun x => Registry.is_Jinja2 x = false) l -> Registry.jinja_engines l = [].
Proof.
  induction 1 as [|x l Hx _ IH]; [reflexivity |].
  unfold Registry.jinja_engines in *. simpl. destruct x; [discriminate | exact IH].
Qed.

Lemma jinja_engines_app (l1 l2 : list EngineEntry) :
  Registry.jinja_engines (l1 ++ l2)
  = (Registry.jinja_engines l1 ++ Registry.jinja_engines l2)%list.
Proof. unfold Registry.jinja_engines. apply omap_app. Qed.

Lemma jinja_engines_cons (e : nat) (l : list EngineEntry) :
  Registry.jinja_engines (EJinja2 e :: l) = e :: Registry.jinja_engines l.
Proof. reflexivity. Qed.

Lemma jinja_engines_single (before after : list EngineEntry) (e : nat) :
  Forall (fun x => Registry.is_Jinja2 x = false) before ->
  Forall (fun x => Registry.is_Jinja2 x = false) after ->
  Registry.jinja_engines (before ++ EJinja2 e :: after) = [e].
Proof.
  intros Hb Ha. rewrite jinja_engines_app, jinja_engines_cons.
  now rewrite (jinja_engines_others before Hb), (jinja_engines_others after Ha).
Qed.

Lemma jinja_engines_two (l1 l2 l3 : list EngineEntry) (a b : nat) :
  2 <= length (Registry.jinja_engines
                 (l1 ++ EJinja2 a :: l2 ++ EJinja2 b :: l3)).
Proof.
  rewrite jinja_engines_app, jinja_engines_cons, jinja_engines_app,
    jinja_engines_cons.
  rewrite length_app. simpl. rewrite length_app. simpl. lia.
Qed.

End RegistryFacts.

(** C1. [get_default] returns the one configured Jinja2 engine, raises
    [ImproperlyConfigured] when none or several are configured, and is
    memoized: once a call has returned an engine, later calls return that
    same engine without looking at the configured engines again, whatever
    they have become and whatever other setting changed, until
    [setting_changed] fires for [TEMPLATES]; the call after that looks at
    the configured engines again.  What is configured is read off the
    list [engines.all()] gives: one Jinja2 instance among other
    backends, none, or two of them anywhere in the list. *)
Theorem C1_get_default_memoized (w : World) :
  (* an empty slot: the three outcomes *)
  (w_default_cache w = None ->
     (forall before e after,
        w_registry w = (before ++ EJinja2 e :: after)%list ->
        Forall (fun x => Registry.is_Jinja2 x = false) before ->
        Forall (fun x => Registry.is_Jinja2 x = false) after ->
        Registry.get_default w
        = (Ok e, set_default_cache (Some e) (log_event EvEnginesAll w)))
     /\ (Forall (fun x => Registry.is_Jinja2 x = false) (w_registry w) ->
        Registry.get_default w
        = (Raise Registry.no_backend, log_event EvEnginesAll w))
     /\ (forall l1 a l2 b l3,
        w_registry w = (l1 ++ EJinja2 a :: l2 ++ EJinja2 b :: l3)%list ->
        Registry.get_default w
        = (Raise Registry.several_backends, log_event EvEnginesAll w)))
  /\ exc_type Registry.no_backend = ImproperlyConfigured
  /\ exc_type Registry.several_backends = ImproperlyConfigured
  (* memoized: the same instance, and no new scan *)
  /\ (forall e w', Registry.get_default w = (Ok e, w') ->
        forall (r : list EngineEntry) (setting : string),
          setting <> "TEMPLATES" ->
          Registry.get_default (Registry._setting_changed setting (set_registry r w'))
          = (Ok e, set_registry r w'))
  (* invalidated by TEMPLATES: the next call recomputes *)
  /\ (w_default_cache (Registry._setting_changed "TEMPLATES" w) = None
      /\ (forall before e after,
            w_registry w = (before ++ EJinja2 e :: after)%list ->
            Forall (fun x => Registry.is_Jinja2 x = false) before ->
            Forall (fun x => Registry.is_Jinja2 x = false) after ->
            Registry.get_default (Registry._setting_changed "TEMPLATES" w)
            = (Ok e, set_default_cache (Some e)
                       (log_event EvEnginesAll
                          (Registry._setting_changed "TEMPLATES" w))))
      /\ (Forall (fun x => Registry.is_Jinja2 x = false) (w_registry w) ->
            Registry.get_default (Registry._setting_changed "TEMPLATES" w)
            = (Raise Registry.no_backend,
               log_event EvEnginesAll (Registry._setting_changed "TEMPLATES" w)))
      /\ (forall l1 a l2 b l3,
            w_registry w = (l1 ++ EJinja2 a :: l2 ++ EJinja2 b :: l3)%list ->
            Registry.get_default (Registry._setting_changed "TEMPLATES" w)
            = (Raise Registry.several_backends,
               log_event EvEnginesAll (Registry._setting_changed "TEMPLATES" w)))).
Proof.
  assert (Hfresh : forall w0 : World,
             w_default_cache w0 = None ->
             (forall before e after,
                 w_registry w0 = (before ++ EJinja2 e :: after)%list ->
                 Forall (fun x => Registry.is_Jinja2 x = false) before ->
                 Forall (fun x => Registry.is_Jinja2 x = false) after ->
                 Registry.get_default w0
                 = (Ok e, set_default_cache (Some e) (log_event EvEnginesAll w0)))
             /\ (Forall (fun x => Registry.is_Jinja2 x = false) (w_registry w0) ->
                 Registry.get_default w0
                 = (Raise Registry.no_backend, log_event EvEnginesAll w0))
             /\ (forall l1 a l2 b l3,
                 w_registry w0 = (l1 ++ EJinja2 a :: l2 ++ EJinja2 b :: l3)%list ->
                 Registry.get_default w0
                 = (Raise Registry.several_backends, log_event EvEnginesAll w0))).
  { intros w0 Hc. repeat split.
    - intros before e after Hreg Hb Ha. apply get_default_one; [exact Hc |].
      rewrite Hreg. now apply jinja_engines_single.
    - intros Hnone. apply get_default_none; [exact Hc |].
      now apply jinja_engines_others.
    - intros l1 a l2 b l3 Hreg. apply get_default_several; [exact Hc |].
      rewrite Hreg. apply jinja_engines_two. }
  split; [exact (Hfresh w) |].
  split; [reflexivity |]. split; [reflexivity |]. split.
  - intros e w' Hrun r setting Hne.
    rewrite setting_changed_other by assumption.
    apply get_default_cached. simpl. eapply get_default_fills, Hrun.
  - split; [reflexivity |].
    exact (Hfresh (Registry._setting_changed "TEMPLATES" w) eq_refl).
Qed.

(** C1 on registries that hold one Jinja2 engine between two other
    backends, none, and two; then on the emptied registry once the
    engine is memoized, before and after [TEMPLATES] changes. *)
Lemma C1_witness :
  let w1 := set_registry [EOther "django"; EJinja2 4; EOther "mako"] empty_world in
  let w0 := set_registry [EOther "django"] empty_world in
  let w2 := set_registry [EJinja2 4; EOther "django"; EJinja2 5] empty_world in
  let kept := set_default_cache (Some 4) (log_event EvEnginesAll w1) in
  Registry.get_default w1 = (Ok 4, kept)
  /\ Registry.get_default w0 = (Raise Registry.no_backend, log_event EvEnginesAll w0)
  /\ Registry.get_default w2
     = (Raise Registry.several_backends, log_event EvEnginesAll w2)
  /\ Registry.get_default (Registry._setting_changed "DEBUG" (set_registry [] kept))
     = (Ok 4, set_registry [] kept)
  /\ Registry.get_default (Registry._setting_changed "TEMPLATES" (set_registry [] kept))
     = (Raise Registry.no_backend,
        log_event EvEnginesAll
          (Registry._setting_changed "TEMPLATES" (set_registry [] kept))).
Proof.
  cbv zeta. split; [| split; [| split; [| split]]].
  - refine (proj1 (proj1 (C1_get_default_memoized
                            (set_registry [EOther "django"; EJinja2 4; EOther "mako"]
                               empty_world)) eq_refl)
              [EOther "django"] 4 [EOther "mako"] eq_refl _ _);
      repeat constructor.
  - refine (proj1 (proj2 (proj1 (C1_get_default_memoized
                                   (set_registry [EOther "django"] empty_world))
                            eq_refl)) _).
    repeat constructor.
  - exact (proj2 (proj2 (proj1 (C1_get_default_memoized
                                  (set_registry [EJinja2 4; EOther "django"; EJinja2 5]
                                     empty_world)) eq_refl))
             [] 4 [EOther "django"] 5 [] eq_refl).
  - refine (proj1 (proj2 (proj2 (proj2 (C1_get_default_memoized
                                          (set_registry
                                             [EOther "django"; EJinja2 4; EOther "mako"]
                                             empty_world)))))
              4 _ eq_refl [] "DEBUG" _).
    discriminate.
  - refine (proj1 (proj2 (proj2 (proj2 (proj2 (proj2 (proj2 (C1_get_default_memoized
              (set_registry []
                 (set_default_cache (Some 4)
                    (log_event EvEnginesAll
                       (set_registry [EOther "django"; EJinja2 4; EOther "mako"]
                          empty_world))))))))))) _).
    constructor.
Defined.

(** ** Running the wrapper's primitives *)

Section WrapperFacts.
Variable h : Host.

Lemma read_ctx_run (l : nat) (o : CtxObj) (w : World) :
  w_ctxs w !! l = Some o -> Wrapper.read_ctx l w = (Ok o, w).
Proof. intros Hl. unfold Wrapper.read_ctx. now rewrite Hl. Qed.

Lemma ctx_setitem_run (l : nat) (k : string) (v : PyVal) (o : CtxObj) (w : World) :
  w_ctxs w !! l = Some o ->
  Wrapper.ctx_setitem l k v w
  = (Ok tt, set_ctxs <[l := mkCtx (is_base_context o) (<[k:=v]> (ctx_items o))]> w).
Proof.
  intros Hl. unfold Wrapper.ctx_setitem, bind. now rewrite (read_ctx_run l o).
Qed.

Lemma ctx_update_run (l : nat) (d : gmap string PyVal) (o : CtxObj) (w : World) :
  w_ctxs w !! l = Some o ->
  Wrapper.ctx_update l d w
  = (Ok tt, set_ctxs <[l := mkCtx (is_base_context o) (d ∪ ctx_items o)]> w).
Proof.
  intros Hl. unfold Wrapper.ctx_update, bind. now rewrite (read_ctx_run l o).
Qed.

Lemma fresh_ctx_free (m : gmap nat CtxObj) : m !! fresh (dom m) = None.
Proof. apply not_elem_of_dom, is_fresh. Qed.

Lemma fresh_ctx_other (m : gmap nat CtxObj) (l : nat) (o : CtxObj) :
  m !! l = Some o -> l <> fresh (dom m).
Proof. intros Hl ->. rewrite fresh_ctx_free in Hl. discriminate. Qed.

(** The loop over the processors, when it runs to its end. *)
Lemma run_processors_ok (request : nat) (ps : list PyVal) :
  forall (l : nat) (o : CtxObj) (w w' : World),
    w_ctxs w !! l = Some o ->
    Wrapper.run_processors h l request ps w = (Ok tt, w') ->
    exists ds,
      Forall2 (fun p d => call_processor h p request = Ok d) ps ds
      /\ w' = mkWorld
                (<[l := mkCtx (is_base_context o) (overlay ds (ctx_items o))]> (w_ctxs w))
                (w_lazies w) (w_engines w) (w_registry w) (w_default_cache w)
                (processor_events request ps ++ w_log w).
Proof.
  induction ps as [|p ps IH]; intros l o w w' Hl Hrun.
  - simpl in Hrun. injection Hrun as <-. exists []. split; [constructor |].
    destruct w, o; simpl in *. now rewrite insert_id.
  - simpl in Hrun. unfold bind, emit, modify, lift in Hrun. simpl in Hrun.
    destruct (call_processor h p request) as [d|x] eqn:Hcall; [| discriminate].
    rewrite (ctx_update_run l d o) in Hrun by exact Hl.
    eapply IH in Hrun; [| simpl; apply lookup_insert_eq].
    destruct Hrun as (ds & Hds & ->). exists (d :: ds). split.
    + now constructor.
    + simpl. rewrite insert_insert_eq. unfold processor_events. simpl.
      now rewrite <- app_assoc.
Qed.

(** The loop, however it ends: it calls processors and writes to the
    one context; lazy objects and engines are not touched. *)
Lemma run_processors_frame (request : nat) (ps : list PyVal) :
  forall (l : nat) (w w' : World) (r : Res unit),
    Wrapper.run_processors h l request ps w = (r, w') ->
    w_lazies w' = w_lazies w /\ w_engines w' = w_engines w
    /\ exists qs, w_log w' = (processor_events request qs ++ w_log w)%list.
Proof.
  induction ps as [|p ps IH]; intros l w w' r Hrun.
  - simpl in Hrun. injection Hrun as <- <-. repeat split. now exists [].
  - simpl in Hrun. unfold bind, emit, modify, lift in Hrun. simpl in Hrun.
    destruct (call_processor h p request) as [d|x] eqn:Hcall.
    + unfold Wrapper.ctx_update, bind, Wrapper.read_ctx, modify in Hrun.
      simpl in Hrun.
      destruct (w_ctxs w !! l) as [o|] eqn:Hl.
      * apply IH in Hrun. destruct Hrun as (Hz & He & qs & Hlog). simpl in *.
        repeat split; [exact Hz | exact He |]. exists (p :: qs).
        rewrite Hlog. unfold processor_events. simpl. now rewrite <- app_assoc.
      * injection Hrun as <- <-. repeat split. now exists [p].
    + injection Hrun as <- <-. repeat split. now exists [p].
Qed.

(** Reading [context_processors]: nothing but the engine's own slot
    changes, and after a read that returns the slot holds the result. *)
Lemma context_processors_frame (self : nat) (w w' : World) (r : Res (list PyVal)) :
  Engine.context_processors h self w = (r, w') ->
  w_ctxs w' = w_ctxs w /\ w_lazies w' = w_lazies w /\ w_log w' = w_log w
  /\ w_registry w' = w_registry w /\ w_default_cache w' = w_default_cache w.
Proof.
  unfold Engine.context_processors, Engine.get_engine, bind, get_world, ret,
    raise, lift, modify. simpl.
  destruct (w_engines w !! self) as [e|]; [| now intros [= <- <-]].
  destruct (cp_cache e) as [ps|]; [now intros [= <- <-] |].
  destruct (Engine.py_iter (_context_processors e)) as [paths|x];
    [| now intros [= <- <-]].
  destruct (Engine.import_all h paths) as [ps|x]; now intros [= <- <-].
Qed.

Lemma context_processors_ok (self : nat) (w w' : World) (ps : list PyVal) :
  Engine.context_processors h self w = (Ok ps, w') ->
  exists e, w_engines w' !! self = Some e /\ cp_cache e = Some ps.
Proof.
  unfold Engine.context_processors, Engine.get_engine, bind, get_world, ret,
    raise, lift, modify. simpl.
  destruct (w_engines w !! self) as [e|] eqn:He; [| discriminate].
  destruct (cp_cache e) as [qs|] eqn:Hc.
  - intros [= <- <-]. eauto.
  - destruct (Engine.py_iter (_context_processors e)) as [paths|x]; [| discriminate].
    destruct (Engine.import_all h paths) as [qs|x]; [| discriminate].
    intros [= <- <-]. simpl. rewrite lookup_insert_eq. eauto.
Qed.

(** Assembling the context of a call with a request, on the caller's
    own mapping [l]: what the store holds when it returns. *)
Lemma assemble_request_ok (self : Template) (l request l2 : nat) (o : CtxObj)
      (w w' : World) :
  w_ctxs w !! l = Some o ->
  Wrapper.assemble h self (Some l) (Some request) w = (Ok l2, w') ->
  l2 = l
  /\ exists ps ds e,
       w_engines w' !! backend self = Some e /\ cp_cache e = Some ps
       /\ Forall2 (fun p d => call_processor h p request = Ok d) ps ds
       /\ w_ctxs w'
          = <[l := mkCtx (is_base_context o)
                     (overlay ds
                        (<["csrf_token" := VLazy (fresh (dom (w_lazies w)))]>
                           (<["request" := VRequest request]> (ctx_items o))))]>
              (w_ctxs w)
       /\ w_lazies w' = <[fresh (dom (w_lazies w)) := mkLazy request None]> (w_lazies w)
       /\ w_log w' = (processor_events request ps ++ w_log w)%list.
Proof.
  intros Hl. unfold Wrapper.assemble.
  unfold bind at 1. unfold ret at 1.
  unfold bind at 1. unfold bind at 1.
  rewrite (ctx_setitem_run l _ _ o) by exact Hl.
  unfold bind at 1. unfold Wrapper.alloc_lazy at 1.
  unfold bind at 1.
  erewrite ctx_setitem_run by (simpl; apply lookup_insert_eq).
  unfold bind at 1.
  destruct (Engine.context_processors h (backend self) _) as [[ps|x] w1] eqn:Hcp;
    [| discriminate].
  destruct (context_processors_frame _ _ _ _ Hcp) as (Hc & Hz & Hlog & _).
  destruct (context_processors_ok _ _ _ _ Hcp) as (e & He & Hcache).
  simpl in Hc, Hz, Hlog.
  destruct (Wrapper.run_processors h l request ps w1) as [[[]|x] w2] eqn:Hrun;
    [| discriminate].
  unfold ret. intros [= <- <-]. split; [reflexivity |].
  eapply run_processors_ok in Hrun;
    [| rewrite Hc; rewrite insert_insert_eq; apply lookup_insert_eq].
  destruct Hrun as (ds & Hds & ->). simpl.
  exists ps, ds, e. repeat split; try assumption.
  - rewrite Hc. now rewrite !insert_insert_eq.
  - now rewrite Hlog.
Qed.

(** Without a mapping from the caller, the call works on a new empty one. *)
Lemma assemble_default_context (self : Template) (request : option nat) (w : World) :
  Wrapper.assemble h self None request w
  = Wrapper.assemble h self (Some (fresh (dom (w_ctxs w)))) request
      (set_ctxs <[fresh (dom (w_ctxs w)) := mkCtx false ∅]> w).
Proof. reflexivity. Qed.

(** Without a request, nothing is assembled. *)
Lemma assemble_no_request (self : Template) (l : nat) (w : World) :
  Wrapper.assemble h self (Some l) None w = (Ok l, w).
Proof. reflexivity. Qed.

(** The debug signal: the caller's mapping stays, and the context that
    goes on holds the same pairs. *)
Lemma debug_signal_run (self : Template) (l : nat) (o : CtxObj) (w : World) :
  w_ctxs w !! l = Some o ->
  exists l' o' w',
    Wrapper.debug_signal self l w = (Ok l', w')
    /\ w_ctxs w' !! l = Some o
    /\ w_ctxs w' !! l' = Some o' /\ ctx_items o' = ctx_items o
    /\ w_lazies w' = w_lazies w /\ w_engines w' = w_engines w
    /\ w_log w'
       = ((if truthy (_debug self) then [EvTemplateRendered self self l'] else [])
            ++ w_log w)%list.
Proof.
  intros Hl. unfold Wrapper.debug_signal.
  destruct (truthy (_debug self)).
  - unfold bind at 1. rewrite (read_ctx_run l o) by exact Hl.
    destruct (is_base_context o).
    + exists l, o. eexists. split; [reflexivity |]. simpl. repeat split; assumption.
    + exists (fresh (dom (w_ctxs w))), (mkCtx false (ctx_items o)). eexists.
      split; [reflexivity |]. simpl. repeat split.
      * rewrite lookup_insert_ne; [exact Hl |].
        intros Heq. symmetry in Heq. revert Heq. now apply fresh_ctx_other with o.
      * apply lookup_insert_eq.
  - exists l, o, w. simpl. repeat split; assumption.
Qed.

End WrapperFacts.

(** ** Frame reasoning: what a computation leaves as it was *)

Section Keeps.
Variable R : World -> World -> Prop.
Hypothesis R_refl : forall w, R w w.
Hypothesis R_trans : forall a b c, R a b -> R b c -> R a c.

Lemma keeps_ret {A} (a : A) : keeps R (ret a).
Proof. intros w r w' [= <- <-]. apply R_refl. Qed.

Lemma keeps_raise {A} (e : PyExc) : keeps R (@raise A e).
Proof. intros w r w' [= <- <-]. apply R_refl. Qed.

Lemma keeps_lift {A} (x : Res A) : keeps R (lift x).
Proof. intros w r w' [= <- <-]. apply R_refl. Qed.

Lemma keeps_get_world : keeps R get_world.
Proof. intros w r w' [= <- <-]. apply R_refl. Qed.

Lemma keeps_modify (f : World -> World) :
  (forall w, R w (f w)) -> keeps R (modify f).
Proof. intros Hf w r w' [= <- <-]. apply Hf. Qed.

Lemma keeps_bind {A B} (m : M A) (k : A -> M B) :
  keeps R m -> (forall a, keeps R (k a)) -> keeps R (bind m k).
Proof.
  intros Hm Hk w r w'. unfold bind.
  destruct (m w) as [[a|x] w1] eqn:Hrun.
  - intros Hrun2. eapply R_trans; [eapply Hm, Hrun | eapply Hk, Hrun2].
  - intros [= <- <-]. eapply Hm, Hrun.
Qed.

End Keeps.

Section KeepsEvents.
Variable h : Host.
Variable kind : Event -> bool.

Local Abbreviation K m := (keeps (same_events kind) m).

Lemma same_events_refl (w : World) : same_events kind w w.
Proof. reflexivity. Qed.

Lemma same_events_trans (a b c : World) :
  same_events kind a b -> same_events kind b c -> same_events kind a c.
Proof. unfold same_events. congruence. Qed.

Lemma same_events_log (w w' : World) :
  w_log w' = w_log w -> same_events kind w w'.
Proof. unfold same_events, events. now intros ->. Qed.

Local Ltac kbind :=
  apply keeps_bind; [apply same_events_trans | | intros ?].

Lemma keeps_emit (e : Event) : kind e = false -> K (emit e).
Proof.
  intros He. apply keeps_modify. intros w.
  unfold same_events, events. simpl. now rewrite He.
Qed.

Lemma keeps_alloc_ctx (o : CtxObj) : K (Wrapper.alloc_ctx o).
Proof. intros w r w' [= <- <-]. now apply same_events_log. Qed.

Lemma keeps_alloc_lazy (o : LazyObj) : K (Wrapper.alloc_lazy o).
Proof. intros w r w' [= <- <-]. now apply same_events_log. Qed.

Lemma keeps_read_ctx (l : nat) : K (Wrapper.read_ctx l).
Proof.
  intros w r w'. unfold Wrapper.read_ctx.
  destruct (w_ctxs w !! l); intros [= <- <-]; apply same_events_refl.
Qed.

Lemma keeps_set_ctxs (f : gmap nat CtxObj -> gmap nat CtxObj) : K (modify (set_ctxs f)).
Proof. apply keeps_modify. intros w. now apply same_events_log. Qed.

Lemma keeps_ctx_setitem (l : nat) (k : string) (v : PyVal) :
  K (Wrapper.ctx_setitem l k v).
Proof.
  kbind; [apply keeps_read_ctx | apply keeps_set_ctxs].
Qed.

Lemma keeps_ctx_update (l : nat) (d : gmap string PyVal) :
  K (Wrapper.ctx_update l d).
Proof.
  kbind; [apply keeps_read_ctx | apply keeps_set_ctxs].
Qed.

Lemma keeps_context_processors (self : nat) : K (Engine.context_processors h self).
Proof.
  intros w r w' Hrun. apply same_events_log.
  now destruct (context_processors_frame h _ _ _ _ Hrun) as (_ & _ & Hlog & _).
Qed.

Hypothesis kind_processor : forall p request, kind (EvProcessor p request) = false.

Lemma keeps_run_processors (l request : nat) (ps : list PyVal) :
  K (Wrapper.run_processors h l request ps).
Proof.
  induction ps as [|p ps IH]; simpl.
  - apply keeps_ret, same_events_refl.
  - kbind; [now apply keeps_emit |].
    kbind; [apply keeps_lift, same_events_refl |].
    kbind; [apply keeps_ctx_update | exact IH].
Qed.

Lemma keeps_assemble (self : Template) (context request : option nat) :
  K (Wrapper.assemble h self context request).
Proof.
  unfold Wrapper.assemble.
  apply keeps_bind; [apply same_events_trans | | intros l].
  { destruct context; [apply keeps_ret, same_events_refl | apply keeps_alloc_ctx]. }
  kbind.
  2: apply keeps_ret, same_events_refl.
  destruct request as [req|]; [| apply keeps_ret, same_events_refl].
  kbind; [apply keeps_ctx_setitem |].
  kbind; [apply keeps_alloc_lazy |].
  kbind; [apply keeps_ctx_setitem |].
  kbind; [apply keeps_context_processors | apply keeps_run_processors].
Qed.

Hypothesis kind_render : forall c items, kind (EvCompiledRender c items) = false.

(** The rest of [render], once the debug signal is out of the way. *)
Lemma keeps_render_tail (self : Template) (l : nat) :
  K (o <- Wrapper.read_ctx l ;;
     emit (EvCompiledRender (template self) (ctx_items o)) ;;;
     lift (compiled_render h (template self) (ctx_items o))).
Proof.
  kbind; [apply keeps_read_ctx |].
  kbind; [now apply keeps_emit | apply keeps_lift, same_events_refl].
Qed.

Lemma keeps_debug_signal (self : Template) (l : nat) :
  (truthy (_debug self) = true ->
   forall l', kind (EvTemplateRendered self self l') = false) ->
  K (Wrapper.debug_signal self l).
Proof.
  intros Hk. unfold Wrapper.debug_signal.
  destruct (truthy (_debug self)); [| apply keeps_ret, same_events_refl].
  apply keeps_bind; [apply same_events_trans | apply keeps_read_ctx | intros o].
  apply keeps_bind; [apply same_events_trans | | intros l'].
  - destruct (is_base_context o); [apply keeps_ret, same_events_refl
                                  | apply keeps_alloc_ctx].
  - kbind.
    + apply keeps_emit. now apply Hk.
    + apply keeps_ret, same_events_refl.
Qed.

Lemma keeps_render (self : Template) (context request : option nat) :
  (truthy (_debug self) = true ->
   forall l', kind (EvTemplateRendered self self l') = false) ->
  K (Wrapper.render h self context request).
Proof.
  intros Hk. unfold Wrapper.render.
  apply keeps_bind; [apply same_events_trans | apply keeps_assemble | intros l].
  apply keeps_bind; [apply same_events_trans | now apply keeps_debug_signal | intros l'].
  apply keeps_render_tail.
Qed.

End KeepsEvents.

(** ** Rendering *)

Section RenderFacts.
Variable h : Host.

(** A call without a request, on the caller's mapping [l]. *)
Lemma render_no_request_run (self : Template) (l : nat) (o : CtxObj) (w : World) :
  w_ctxs w !! l = Some o ->
  exists l' w',
    Wrapper.render h self (Some l) None w
    = (compiled_render h (template self) (ctx_items o), w')
    /\ w_ctxs w' !! l = Some o
    /\ w_lazies w' = w_lazies w
    /\ w_log w'
       = (EvCompiledRender (template self) (ctx_items o)
            :: (if truthy (_debug self) then [EvTemplateRendered self self l'] else [])
            ++ w_log w)%list.
Proof.
  intros Hl. unfold Wrapper.render. unfold bind at 1.
  rewrite assemble_no_request.
  destruct (debug_signal_run self l o w Hl)
    as (l' & o' & w1 & Hrun & Hkeep & Hl' & Hitems & Hz & _ & Hlog).
  unfold bind at 1. rewrite Hrun.
  unfold bind at 1. rewrite (read_ctx_run l' o') by exact Hl'.
  unfold bind, emit, modify, lift. rewrite Hitems.
  exists l'. eexists. split; [reflexivity |]. simpl.
  repeat split; [exact Hkeep | exact Hz | now rewrite Hlog].
Qed.

(** A call with a request that returns, on the caller's mapping [l]. *)
Lemma render_request_run (self : Template) (l request : nat) (o : CtxObj)
      (w w' : World) (out : PyVal) :
  w_ctxs w !! l = Some o ->
  Wrapper.render h self (Some l) (Some request) w = (Ok out, w') ->
  exists ps ds e,
    w_engines w' !! backend self = Some e /\ cp_cache e = Some ps
    /\ Forall2 (fun p d => call_processor h p request = Ok d) ps ds
    /\ w_ctxs w' !! l
       = Some (mkCtx (is_base_context o)
                 (overlay ds
                    (<["csrf_token" := VLazy (fresh (dom (w_lazies w)))]>
                       (<["request" := VRequest request]> (ctx_items o))))).
Proof.
  intros Hl. unfold Wrapper.render. unfold bind at 1.
  destruct (Wrapper.assemble h self (Some l) (Some request) w) as [[l2|x] w1] eqn:Has;
    [| discriminate].
  destruct (assemble_request_ok h _ _ _ _ _ _ _ Hl Has)
    as (-> & ps & ds & e & He & Hcache & Hds & Hctx & _ & _).
  assert (Hl1 : w_ctxs w1 !! l
                = Some (mkCtx (is_base_context o)
                          (overlay ds
                             (<["csrf_token" := VLazy (fresh (dom (w_lazies w)))]>
                                (<["request" := VRequest request]> (ctx_items o))))))
    by (rewrite Hctx; apply lookup_insert_eq).
  destruct (debug_signal_run self l _ w1 Hl1)
    as (l' & o' & w2 & Hrun & Hkeep & Hl' & _ & _ & Heng & _).
  unfold bind at 1. rewrite Hrun.
  unfold bind at 1. rewrite (read_ctx_run l' o') by exact Hl'.
  unfold bind, emit, modify, lift. simpl.
  destruct (compiled_render h (template self) (ctx_items o')); [| discriminate].
  intros [= <- <-]. simpl. exists ps, ds, e. rewrite Heng. auto.
Qed.

End RenderFacts.

(** C8. A call to [render] without a request hands the compiled
    template exactly the pairs of the caller's mapping (none, when the
    caller passed no mapping): the result is the compiled template's on
    those pairs, the log grows by that one hand-over and, for a handle in
    debug mode, by the signal; no processor is called, no lazy token is
    made, and a key [request] or [csrf_token] is there only if the caller
    put it. *)
Theorem C8_render_without_request_passes_context
        (h : Host) (self : Template) (context : option nat) (w : World)
        (items : gmap string PyVal) :
  caller_items w context = Some items ->
  exists l' w',
    Wrapper.render h self context None w
    = (compiled_render h (template self) items, w')
    /\ w_log w'
       = (EvCompiledRender (template self) items
            :: (if truthy (_debug self) then [EvTemplateRendered self self l'] else [])
            ++ w_log w)%list
    /\ events is_processor_call w' = events is_processor_call w
    /\ events is_get_token w' = events is_get_token w
    /\ w_lazies w' = w_lazies w.
Proof.
  intros Hitems.
  assert (Hrun : exists l o w0,
             Wrapper.render h self context None w
             = Wrapper.render h self (Some l) None w0
             /\ w_ctxs w0 !! l = Some o /\ ctx_items o = items
             /\ w_log w0 = w_log w /\ w_lazies w0 = w_lazies w).
  { destruct context as [l|]; simpl in Hitems.
    - destruct (w_ctxs w !! l) as [o|] eqn:Hl; [| discriminate].
      injection Hitems as <-. exists l, o, w. auto.
    - injection Hitems as <-.
      exists (fresh (dom (w_ctxs w))), (mkCtx false ∅),
        (set_ctxs <[fresh (dom (w_ctxs w)) := mkCtx false ∅]> w).
      repeat split. simpl. apply lookup_insert_eq. }
  destruct Hrun as (l & o & w0 & -> & Hl & <- & Hlog0 & Hz0).
  destruct (render_no_request_run h self l o w0 Hl) as (l' & w' & Hr & _ & Hz & Hlog).
  exists l', w'. split; [exact Hr |]. unfold events. rewrite <- Hlog0, <- Hz0.
  split; [exact Hlog |]. split; [| split; [| exact Hz]].
  - rewrite Hlog. simpl. now destruct (truthy (_debug self)).
  - rewrite Hlog. simpl. now destruct (truthy (_debug self)).
Qed.

(** C8 on a debug-mode handle of an engine that has a processor: the
    caller's one pair goes through, the processor is not called. *)
Lemma C8_witness :
  exists l' w',
    Wrapper.render (Sample.host true None) (Sample.handle true) (Some 0) None
      (Sample.world (Sample.host true None)
         [("context_processors", VList [VStr "procs.user"])]
         {[ "title" := VStr "home" ]})
    = (Ok (VStr "<html>"), w')
    /\ w_log w'
       = [EvCompiledRender (CompiledTemplate 0) {[ "title" := VStr "home" ]};
          EvTemplateRendered (Sample.handle true) (Sample.handle true) l']
    /\ events is_processor_call w' = []
    /\ events is_get_token w' = []
    /\ w_lazies w' = ∅.
Proof.
  exact (C8_render_without_request_passes_context
           (Sample.host true None) (Sample.handle true) (Some 0)
           (Sample.world (Sample.host true None)
              [("context_processors", VList [VStr "procs.user"])]
              {[ "title" := VStr "home" ]})
           {[ "title" := VStr "home" ]} eq_refl).
Defined.

(** C2, as stated, fails: a call with a request writes into the mapping
    the caller passed.  The caller's dict holds [a] only; after [render]
    has returned it holds [request] and [csrf_token] as well. *)
Lemma C2_counterexample_request_written_to_caller :
  let h := Sample.host false None in
  let w := Sample.world h [] {[ "a" := VStr "1" ]} in
  let run := Wrapper.render h (Sample.handle false) (Some 0) (Some 7) w in
  caller_items w (Some 0) = Some {[ "a" := VStr "1" ]}
  /\ fst run = Ok (VStr "<html>")
  /\ caller_items (snd run) (Some 0)
     = Some (<["csrf_token" := VLazy 0]>
               (<["request" := VRequest 7]> {[ "a" := VStr "1" ]}))
  /\ caller_items (snd run) (Some 0) <> caller_items w (Some 0).
Proof.
  cbv zeta. split; [vm_compute; reflexivity |].
  split; [vm_compute; reflexivity |].
  split; [vm_compute; reflexivity |].
  intros Heq.
  apply (f_equal (fun m => m ≫= (fun d : gmap string PyVal => d !! "request"))) in Heq.
  vm_compute in Heq. discriminate Heq.
Qed.

(** C2, amended.  Without a request, [render] leaves the caller's
    mapping as it was, whatever the outcome (a handle in debug mode
    signals a copy).  With a request there is no copy: when [render]
    has returned, the caller's own mapping holds [request], the lazy
    [csrf_token] and the contributions of the engine's context
    processors, laid in that order over the pairs it held before. *)
Theorem C2_render_writes_caller_mapping_only_with_request
        (h : Host) (self : Template) (l : nat) (o : CtxObj) (w : World) :
  w_ctxs w !! l = Some o ->
  (forall r w', Wrapper.render h self (Some l) None w = (r, w') ->
                w_ctxs w' !! l = Some o)
  /\ (forall request out w',
        Wrapper.render h self (Some l) (Some request) w = (Ok out, w') ->
        exists ps ds e cell,
          w_engines w' !! backend self = Some e /\ cp_cache e = Some ps
          /\ Forall2 (fun p d => call_processor h p request = Ok d) ps ds
          /\ w_ctxs w' !! l
             = Some (mkCtx (is_base_context o)
                       (overlay ds
                          (<["csrf_token" := VLazy cell]>
                             (<["request" := VRequest request]> (ctx_items o)))))).
Proof.
  intros Hl. split.
  - intros r w' Hrun.
    destruct (render_no_request_run h self l o w Hl) as (l' & w1 & Hr & Hkeep & _).
    rewrite Hr in Hrun. injection Hrun as _ <-. exact Hkeep.
  - intros request out w' Hrun.
    destruct (render_request_run h _ _ _ _ _ _ _ Hl Hrun)
      as (ps & ds & e & He & Hcache & Hds & Hctx).
    exists ps, ds, e, (fresh (dom (w_lazies w))). auto.
Qed.

(** C2, amended, on a dict holding one pair and an engine with one
    processor. *)
Lemma C2_witness :
  let h := Sample.host false None in
  let w := Sample.world h [("context_processors", VList [VStr "procs.user"])]
                        {[ "a" := VStr "1" ]} in
  (forall r w', Wrapper.render h (Sample.handle true) (Some 0) None w = (r, w') ->
                w_ctxs w' !! 0%nat = Some (mkCtx false {[ "a" := VStr "1" ]}))
  /\ (forall request out w',
        Wrapper.render h (Sample.handle true) (Some 0) (Some request) w = (Ok out, w') ->
        exists ps ds e cell,
          w_engines w' !! 0%nat = Some e /\ cp_cache e = Some ps
          /\ Forall2 (fun p d => Sample.processor p request = Ok d) ps ds
          /\ w_ctxs w' !! 0%nat
             = Some (mkCtx false
                       (overlay ds
                          (<["csrf_token" := VLazy cell]>
                             (<["request" := VRequest request]>
                                {[ "a" := VStr "1" ]}))))).
Proof.
  exact (C2_render_writes_caller_mapping_only_with_request
           (Sample.host false None) (Sample.handle true) 0
           (mkCtx false {[ "a" := VStr "1" ]})
           (Sample.world (Sample.host false None)
              [("context_processors", VList [VStr "procs.user"])]
              {[ "a" := VStr "1" ]})
           eq_refl).
Defined.

(** ** The debug flag of a handle *)

Section DebugFacts.
Variable h : Host.

Lemma from_string_debug (self : nat) (code : PyVal) (w w' : World) (t : Template) :
  Engine.from_string h self code w = (Ok t, w') -> _debug t = VBool false.
Proof.
  unfold Engine.from_string, Engine.get_engine, bind, get_world, ret, raise,
    emit, modify, lift. simpl.
  destruct (w_engines w !! self) as [e|]; [| discriminate].
  destruct (env_from_string h (env e) code); [| discriminate].
  now intros [= <- <-].
Qed.

Lemma get_template_debug (self : nat) (name : PyVal) (e : Jinja2) (w w' : World)
      (t : Template) :
  w_engines w !! self = Some e ->
  Engine.get_template h self name w = (Ok t, w') -> _debug t = tmpl_debug e.
Proof.
  intros He.
  unfold Engine.get_template, Engine.get_engine, bind, get_world, ret, raise,
    emit, modify, lift. simpl. rewrite He.
  destruct (negb (Engine.match_template h e name)); [discriminate |]. simpl.
  destruct (env_get_template h (env e) name) as [c|x].
  - now intros [= <- <-].
  - destruct (exc_type x); discriminate.
Qed.

(** A handle whose flag is false sends no signal, however the call ends. *)
Lemma render_silent (self : Template) (context request : option nat)
      (w w' : World) (r : Res PyVal) :
  truthy (_debug self) = false ->
  Wrapper.render h self context request w = (r, w') ->
  events is_signal w' = events is_signal w.
Proof.
  intros Hoff Hrun.
  refine (keeps_render h is_signal _ _ self context request _ w r w' Hrun);
    [reflexivity | reflexivity |].
  rewrite Hoff. discriminate.
Qed.

(** A handle whose flag is true sends one, in a call that returns. *)
Lemma render_signals (self : Template) (context request : option nat)
      (w w' : World) (out : PyVal) :
  truthy (_debug self) = true ->
  Wrapper.render h self context request w = (Ok out, w') ->
  exists l', events is_signal w'
             = EvTemplateRendered self self l' :: events is_signal w.
Proof.
  intros Hon. unfold Wrapper.render. unfold bind at 1.
  destruct (Wrapper.assemble h self context request w) as [[l|x] w1] eqn:Has;
    [| discriminate].
  assert (H1 : same_events is_signal w w1)
    by (eapply (keeps_assemble h is_signal); [reflexivity | exact Has]).
  unfold bind at 1.
  destruct (Wrapper.debug_signal self l w1) as [[l'|x] w2] eqn:Hsig; [| discriminate].
  intros Htail.
  assert (H3 : same_events is_signal w2 w')
    by (eapply (keeps_render_tail h is_signal); [reflexivity | exact Htail]).
  exists l'. unfold same_events in *. rewrite H3, <- H1.
  revert Hsig. unfold Wrapper.debug_signal. rewrite Hon.
  unfold bind, Wrapper.read_ctx, emit, modify, ret.
  destruct (w_ctxs w1 !! l) as [o|]; [| discriminate].
  destruct (is_base_context o); simpl; now intros [= <- <-].
Qed.

End DebugFacts.

(** C10. A handle made by [from_string] has its debug flag false,
    whatever the engine's [debug] option: rendering it sends no
    [template_rendered] signal, however the call ends.  A handle made by
    [get_template] carries the engine's [tmpl_debug], and when that is
    set a call to its [render] that returns has sent the signal. *)
Theorem C10_from_string_handles_are_silent
        (h : Host) (self : nat) (code : PyVal) (w w' : World) (t : Template) :
  Engine.from_string h self code w = (Ok t, w') ->
  _debug t = VBool false
  /\ (forall context request w1 r w2,
        Wrapper.render h t context request w1 = (r, w2) ->
        events is_signal w2 = events is_signal w1)
  /\ (forall e name t2 w2 w3,
        w_engines w2 !! self = Some e ->
        Engine.get_template h self name w2 = (Ok t2, w3) ->
        _debug t2 = tmpl_debug e
        /\ (truthy (tmpl_debug e) = true ->
            forall context request w4 out w5,
              Wrapper.render h t2 context request w4 = (Ok out, w5) ->
              exists l', events is_signal w5
                         = EvTemplateRendered t2 t2 l' :: events is_signal w4)).
Proof.
  intros Hfs. pose proof (from_string_debug h _ _ _ _ _ Hfs) as Hd.
  split; [exact Hd | split].
  - intros context request w1 r w2 Hrun.
    eapply render_silent; [| exact Hrun]. now rewrite Hd.
  - intros e name t2 w2 w3 He Hgt.
    pose proof (get_template_debug h _ _ _ _ _ _ He Hgt) as Hd2.
    split; [exact Hd2 |]. intros Hon context request w4 out w5 Hrun.
    eapply render_signals; [| exact Hrun]. now rewrite Hd2.
Qed.

(** C10 on an engine whose [debug] option is set. *)
Lemma C10_witness :
  let h := Sample.host false None in
  let w := Sample.world h [("debug", VBool true)] ∅ in
  let t := mkTemplate (CompiledTemplate 0) 0 (VBool false) in
  _debug t = VBool false
  /\ (forall context request w1 r w2,
        Wrapper.render h t context request w1 = (r, w2) ->
        events is_signal w2 = events is_signal w1)
  /\ (forall e name t2 w2 w3,
        w_engines w2 !! 0%nat = Some e ->
        Engine.get_template h 0 name w2 = (Ok t2, w3) ->
        _debug t2 = tmpl_debug e
        /\ (truthy (tmpl_debug e) = true ->
            forall context request w4 out w5,
              Wrapper.render h t2 context request w4 = (Ok out, w5) ->
              exists l', events is_signal w5
                         = EvTemplateRendered t2 t2 l' :: events is_signal w4)).
Proof.
  exact (C10_from_string_handles_are_silent
           (Sample.host false None) 0 (VStr "{{ title }}")
           (Sample.world (Sample.host false None) [("debug", VBool true)] ∅)
           (log_event (EvEnvFromString (VStr "{{ title }}"))
              (Sample.world (Sample.host false None) [("debug", VBool true)] ∅))
           (mkTemplate (CompiledTemplate 0) 0 (VBool false))
           eq_refl).
Defined.

(** ** The lazy token *)

Section TokenFacts.
Variable h : Host.

Lemma overlay_lookup_untouched (k : string) (ds : list (gmap string PyVal)) :
  Forall (fun d : gmap string PyVal => d !! k = None) ds ->
  forall base : gmap string PyVal, overlay ds base !! k = base !! k.
Proof.
  induction 1 as [|d ds Hd _ IH]; intros base; [reflexivity |].
  unfold overlay in *. simpl. rewrite IH. now apply lookup_union_r.
Qed.

Lemma contributions_of {P : PyVal -> gmap string PyVal -> Prop}
      {Q : gmap string PyVal -> Prop} (ps : list PyVal) (ds : list (gmap string PyVal)) :
  Forall2 P ps ds ->
  (forall p d, p ∈ ps -> P p d -> Q d) ->
  Forall Q ds.
Proof.
  induction 1 as [|p d ps ds Hpd _ IH]; intros HQ; constructor.
  - apply (HQ p); [left | exact Hpd].
  - apply IH. intros q e Hq. apply HQ. now right.
Qed.

(** The first read through a lazy object runs [_get_val]. *)
Lemma force_first (cell request : nat) (w : World) :
  w_lazies w !! cell = Some (mkLazy request None) ->
  Wrapper.force h cell w
  = (Ok (token_value h request),
     set_lazies <[cell := mkLazy request (Some (token_value h request))]>
       (log_event (EvGetToken request) w)).
Proof.
  intros Hc. unfold Wrapper.force, bind, get_world. rewrite Hc. simpl.
  unfold Wrapper._get_val, bind, emit, modify, ret, token_value. simpl.
  now destruct (get_token h request).
Qed.

(** Later reads return what the first one kept. *)
Lemma force_again (cell request : nat) (v : PyVal) (w : World) :
  w_lazies w !! cell = Some (mkLazy request (Some v)) ->
  Wrapper.force h cell w = (Ok v, w).
Proof. intros Hc. unfold Wrapper.force, bind, get_world. now rewrite Hc. Qed.

End TokenFacts.

(** C7, as stated, fails: the processors run after [csrf_token] is set
    and their keys win.  With a processor that contributes [csrf_token]
    and a token provider that yields nothing, the entry the compiled
    template is handed reads ["X"], not ["NOTPROVIDED"]. *)
Lemma C7_counterexample_processor_replaces_token :
  let h := Sample.host false None in
  let w := Sample.world h [("context_processors", VList [VStr "procs.csrf"])] ∅ in
  let run := Wrapper.render h (Sample.handle false) (Some 0) (Some 7) w in
  get_token h 7 = None
  /\ fst run = Ok (VStr "<html>")
  /\ exists items,
       head (w_log (snd run)) = Some (EvCompiledRender (CompiledTemplate 0) items)
       /\ fst (Wrapper.read_key h items "csrf_token" (snd run)) = Ok (VStr "X")
       /\ VStr "X" <> VStr "NOTPROVIDED".
Proof.
  cbv zeta. split; [reflexivity |]. split; [vm_compute; reflexivity |].
  exists (<["csrf_token" := VStr "X"]> {[ "request" := VRequest 7 ]}).
  split; [vm_compute; reflexivity |]. split; [vm_compute; reflexivity |].
  discriminate.
Qed.

(** C7, amended.  When the context of a call with a request has been
    assembled and none of the engine's context processors contributes a
    [csrf_token] key, the entry [csrf_token] is a lazy object not yet
    evaluated: assembling has not invoked the token provider.  The first
    read of the key invokes it once and yields ["NOTPROVIDED"] when it
    gives no token, the token as text otherwise; a second read yields the
    same value without another invocation. *)
Theorem C7_csrf_token_lazy_unless_replaced
        (h : Host) (self : Template) (context : option nat) (request l : nat)
        (w w' : World) :
  Wrapper.assemble h self context (Some request) w = (Ok l, w') ->
  (forall e ps p d,
      w_engines w' !! backend self = Some e -> cp_cache e = Some ps ->
      p ∈ ps -> call_processor h p request = Ok d -> d !! "csrf_token" = None) ->
  exists o cell,
    w_ctxs w' !! l = Some o
    /\ ctx_items o !! "csrf_token" = Some (VLazy cell)
    /\ w_lazies w' !! cell = Some (mkLazy request None)
    /\ events is_get_token w' = events is_get_token w
    /\ (get_token h request = None -> token_value h request = VStr "NOTPROVIDED")
    /\ (forall token, get_token h request = Some token ->
                      token_value h request = VStr (smart_text h token))
    /\ let w1 := set_lazies <[cell := mkLazy request (Some (token_value h request))]>
                   (log_event (EvGetToken request) w') in
       Wrapper.read_key h (ctx_items o) "csrf_token" w'
       = (Ok (token_value h request), w1)
       /\ Wrapper.read_key h (ctx_items o) "csrf_token" w1
          = (Ok (token_value h request), w1).
Proof.
  intros Has Hproc.
  assert (Hev : events is_get_token w' = events is_get_token w)
    by (eapply (keeps_assemble h is_get_token); [reflexivity | exact Has]).
  assert (Hfrom : exists l0 o0 w0,
             Wrapper.assemble h self (Some l0) (Some request) w0 = (Ok l, w')
             /\ w_ctxs w0 !! l0 = Some o0 /\ w_lazies w0 = w_lazies w).
  { destruct context as [l0|].
    - revert Has. unfold Wrapper.assemble at 1. unfold bind at 1. unfold ret at 1.
      unfold bind at 1. unfold bind at 1. unfold Wrapper.ctx_setitem at 1.
      unfold bind at 1. unfold Wrapper.read_ctx at 1.
      destruct (w_ctxs w !! l0) as [o0|] eqn:Hl0; [| discriminate].
      intros Has. exists l0, o0, w. repeat split; [| exact Hl0].
      unfold Wrapper.assemble at 1. unfold bind at 1. unfold ret at 1.
      unfold bind at 1. unfold bind at 1. unfold Wrapper.ctx_setitem at 1.
      unfold bind at 1. unfold Wrapper.read_ctx at 1. rewrite Hl0. exact Has.
    - rewrite assemble_default_context in Has.
      eexists _, (mkCtx false ∅), _. split; [exact Has |].
      split; [simpl; apply lookup_insert_eq | reflexivity]. }
  destruct Hfrom as (l0 & o0 & w0 & Has0 & Hl0 & Hz0).
  destruct (assemble_request_ok h _ _ _ _ _ _ _ Hl0 Has0)
    as (-> & ps & ds & e & He & Hcache & Hds & Hctx & Hz & _).
  assert (Hnone : Forall (fun d : gmap string PyVal => d !! "csrf_token" = None) ds).
  { eapply contributions_of; [exact Hds |]. intros p d Hp Hcall.
    exact (Hproc e ps p d He Hcache Hp Hcall). }
  set (cell := fresh (dom (w_lazies w0))) in *.
  assert (Hcell : w_lazies w' !! cell = Some (mkLazy request None))
    by (rewrite Hz; apply lookup_insert_eq).
  eexists _, cell. split; [rewrite Hctx; apply lookup_insert_eq |].
  assert (Hentry : overlay ds
                     (<["csrf_token" := VLazy cell]>
                        (<["request" := VRequest request]> (ctx_items o0)))
                   !! "csrf_token" = Some (VLazy cell)).
  { rewrite overlay_lookup_untouched by exact Hnone. apply lookup_insert_eq. }
  simpl. split; [exact Hentry |]. split; [exact Hcell |]. split; [exact Hev |].
  split; [intros Hnot; unfold token_value; now rewrite Hnot |].
  split; [intros token Htok; unfold token_value; now rewrite Htok |].
  unfold Wrapper.read_key. rewrite Hentry. split.
  - now apply force_first.
  - apply (force_again h cell request). simpl. apply lookup_insert_eq.
Qed.

(** C7, amended, on an engine whose one processor contributes [user]
    only. *)
Lemma C7_witness :
  let h := Sample.host false None in
  let w := Sample.world h [("context_processors", VList [VStr "procs.user"])] ∅ in
  let w' := snd (Wrapper.assemble h (Sample.handle false) (Some 0) (Some 7) w) in
  exists o cell,
    w_ctxs w' !! 0%nat = Some o
    /\ ctx_items o !! "csrf_token" = Some (VLazy cell)
    /\ w_lazies w' !! cell = Some (mkLazy 7 None)
    /\ events is_get_token w' = events is_get_token w
    /\ (get_token h 7 = None -> token_value h 7 = VStr "NOTPROVIDED")
    /\ (forall token, get_token h 7 = Some token ->
                      token_value h 7 = VStr (smart_text h token))
    /\ let w1 := set_lazies <[cell := mkLazy 7 (Some (token_value h 7))]>
                   (log_event (EvGetToken 7) w') in
       Wrapper.read_key h (ctx_items o) "csrf_token" w' = (Ok (token_value h 7), w1)
       /\ Wrapper.read_key h (ctx_items o) "csrf_token" w1
          = (Ok (token_value h 7), w1).
Proof.
  cbv zeta.
  refine (C7_csrf_token_lazy_unless_replaced
            (Sample.host false None) (Sample.handle false) (Some 0) 7 0
            (Sample.world (Sample.host false None)
               [("context_processors", VList [VStr "procs.user"])] ∅)
            _ _ _).
  - vm_compute. reflexivity.
  - intros e ps p d He Hcache Hp Hcall.
    vm_compute in He. injection He as <-. simpl in Hcache. injection Hcache as <-.
    apply list_elem_of_singleton in Hp. subst p.
    simpl in Hcall. injection Hcall as <-. reflexivity.
Defined.

(** ** Looking a template up *)

Section LookupFacts.
Variable h : Host.

Lemma get_template_unmatched (self : nat) (name : PyVal) (e : Jinja2) (w : World) :
  w_engines w !! self = Some e ->
  Engine.match_template h e name = false ->
  Engine.get_template h self name w
  = (Raise (mkExc TemplateDoesNotExist
                  [VStr ("Template " +:+ PyText.py_str name +:+ " does not exists")]
                  ["get_template"]), w).
Proof.
  intros He Hm.
  unfold Engine.get_template, Engine.get_engine, bind, get_world, ret, raise. simpl.
  rewrite He, Hm. reflexivity.
Qed.

(** A name that matches goes to the compiler: the outcome of the lookup
    decides the outcome of [get_template]. *)
Lemma get_template_matched (self : nat) (name : PyVal) (e : Jinja2) (w : World) :
  w_engines w !! self = Some e ->
  Engine.match_template h e name = true ->
  Engine.get_template h self name w
  = (match env_get_template h (env e) name with
     | Ok c => Ok (mkTemplate c self (tmpl_debug e))
     | Raise exc =>
         match exc_type exc with
         | Jinja2_TemplateNotFound =>
             Raise (mkExc TemplateDoesNotExist [VTuple (exc_args exc)] (exc_tb exc))
         | Jinja2_TemplateSyntaxError =>
             Raise (mkExc TemplateSyntaxError [VTuple (exc_args exc)] (exc_tb exc))
         | _ => Raise exc
         end
     end, log_event (EvEnvGetTemplate name) w).
Proof.
  intros He Hm.
  unfold Engine.get_template, Engine.get_engine, bind, get_world, ret, raise,
    emit, modify. simpl.
  rewrite He, Hm. simpl.
  destruct (env_get_template h (env e) name) as [c|x]; [reflexivity |].
  now destruct (exc_type x).
Qed.

End LookupFacts.

(** C6. For a name that fails the engine's match rule, [get_template]
    raises [TemplateDoesNotExist] with the message
    ["Template <name> does not exists"] and leaves the store as it was:
    the compiler's [get_template] is not invoked (a name that matches is
    handed to it). *)
Theorem C6_unmatched_name_fails_before_compiler
        (h : Host) (self : nat) (name : PyVal) (e : Jinja2) (w : World) :
  w_engines w !! self = Some e ->
  Engine.match_template h e name = false ->
  Engine.get_template h self name w
  = (Raise (mkExc TemplateDoesNotExist
                  [VStr ("Template " +:+ PyText.py_str name +:+ " does not exists")]
                  ["get_template"]), w)
  /\ events is_compiler_lookup (snd (Engine.get_template h self name w))
     = events is_compiler_lookup w
  /\ (forall name', Engine.match_template h e name' = true ->
        events is_compiler_lookup (snd (Engine.get_template h self name' w))
        = EvEnvGetTemplate name' :: events is_compiler_lookup w).
Proof.
  intros He Hm. rewrite (get_template_unmatched h self name e w He Hm).
  split; [reflexivity | split; [reflexivity |]].
  intros name' Hm'. now rewrite (get_template_matched h self name' e w He Hm').
Qed.

(** C6 on the default match rule: [page.html] does not end in
    [.jinja]. *)
Lemma C6_witness :
  let h := Sample.host false None in
  let w := Sample.world h [] ∅ in
  Engine.get_template h 0 (VStr "page.html") w
  = (Raise (mkExc TemplateDoesNotExist
                  [VStr "Template page.html does not exists"] ["get_template"]), w)
  /\ events is_compiler_lookup (snd (Engine.get_template h 0 (VStr "page.html") w))
     = events is_compiler_lookup w
  /\ (forall name',
        Sample.match_by_extension name' VNone (VStr ".jinja") = true ->
        events is_compiler_lookup (snd (Engine.get_template h 0 name' w))
        = EvEnvGetTemplate name' :: events is_compiler_lookup w).
Proof.
  exact (C6_unmatched_name_fails_before_compiler
           (Sample.host false None) 0 (VStr "page.html")
           (mkJinja2 (VStr "templates") ["/srv/templates"] (VBool false)
              (mkEnv (VObj "jinja2.Environment")
                 (<["autoescape" := VBool true]>
                    (<["auto_reload" := VBool false]>
                       (<["extensions" := VList [VStr "jinja2.ext.do"]]>
                          (<["loader" := VObj "jinja2.FileSystemLoader"]>
                             (<["undefined" := jinja2_Undefined]> ∅)))))
                 ∅ ∅ ∅)
              (VList []) VNone (VStr ".jinja") None)
           (Sample.world (Sample.host false None) [] ∅)
           eq_refl eq_refl).
Defined.

(** C5, as stated, fails on the message: the new exception is built
    from the tuple of the compiler error's arguments, so its text is the
    text of that tuple, not the compiler's message. *)
Lemma C5_counterexample_message_is_tuple_text :
  let h := Sample.host false None in
  let w := Sample.world h [] ∅ in
  let run := Engine.get_template h 0 (VStr "broken.jinja") w in
  env_get_template h (mkEnv VNone ∅ ∅ ∅ ∅) (VStr "broken.jinja")
  = Raise Sample.syntax_error
  /\ PyText.exc_str Sample.syntax_error = "unexpected end of template"
  /\ exists exc,
       fst run = Raise exc
       /\ exc_type exc = TemplateSyntaxError
       /\ PyText.exc_str exc = "('unexpected end of template',)"
       /\ PyText.exc_str exc <> PyText.exc_str Sample.syntax_error.
Proof.
  cbv zeta. split; [reflexivity |]. split; [reflexivity |].
  eexists. split; [vm_compute; reflexivity |]. split; [reflexivity |].
  split; [vm_compute; reflexivity |]. vm_compute. discriminate.
Qed.

(** C5, amended.  When the compiler's lookup of a matching name raises
    its syntax error, [get_template] raises the adapter's
    [TemplateSyntaxError] whose single argument is the tuple of the
    compiler error's arguments (its text is the text of that tuple, which
    quotes the compiler's message), with the traceback of the compiler's
    error. *)
Theorem C5_syntax_error_reraised_with_args_and_traceback
        (h : Host) (self : nat) (name : PyVal) (e : Jinja2) (w : World)
        (exc : PyExc) :
  w_engines w !! self = Some e ->
  Engine.match_template h e name = true ->
  env_get_template h (env e) name = Raise exc ->
  exc_type exc = Jinja2_TemplateSyntaxError ->
  exists exc',
    Engine.get_template h self name w = (Raise exc', log_event (EvEnvGetTemplate name) w)
    /\ exc_type exc' = TemplateSyntaxError
    /\ exc_args exc' = [VTuple (exc_args exc)]
    /\ exc_tb exc' = exc_tb exc
    /\ PyText.exc_str exc' = PyText.py_repr (VTuple (exc_args exc)).
Proof.
  intros He Hm Hlookup Hty.
  rewrite (get_template_matched h self name e w He Hm), Hlookup, Hty.
  eexists. split; [reflexivity |]. repeat split.
Qed.

(** C5, amended, on a template the compiler cannot parse. *)
Lemma C5_witness :
  let h := Sample.host false None in
  let w := Sample.world h [] ∅ in
  exists exc',
    Engine.get_template h 0 (VStr "broken.jinja") w
    = (Raise exc', log_event (EvEnvGetTemplate (VStr "broken.jinja")) w)
    /\ exc_type exc' = TemplateSyntaxError
    /\ exc_args exc' = [VTuple [VStr "unexpected end of template"]]
    /\ exc_tb exc' = ["get_template"; "jinja2.environment"; "jinja2.parser"]
    /\ PyText.exc_str exc' = "('unexpected end of template',)".
Proof.
  exact (C5_syntax_error_reraised_with_args_and_traceback
           (Sample.host false None) 0 (VStr "broken.jinja")
           (mkJinja2 (VStr "templates") ["/srv/templates"] (VBool false)
              (mkEnv (VObj "jinja2.Environment")
                 (<["autoescape" := VBool true]>
                    (<["auto_reload" := VBool false]>
                       (<["extensions" := VList [VStr "jinja2.ext.do"]]>
                          (<["loader" := VObj "jinja2.FileSystemLoader"]>
                             (<["undefined" := jinja2_Undefined]> ∅)))))
                 ∅ ∅ ∅)
              (VList []) VNone (VStr ".jinja") None)
           (Sample.world (Sample.host false None) [] ∅)
           Sample.syntax_error eq_refl eq_refl eq_refl eq_refl).
Defined.

(** ** The undefined option *)

Section UndefinedFacts.
Variable h : Host.

Lemma setdefault_absent (k : string) (v : PyVal) (m : gmap string PyVal) :
  m !! k = None -> Engine.setdefault k v m = <[k:=v]> m.
Proof. intros Hk. unfold Engine.setdefault. now rewrite Hk. Qed.

Lemma setdefault_present (k : string) (v x : PyVal) (m : gmap string PyVal) :
  m !! k = Some x -> Engine.setdefault k v m = m.
Proof. intros Hk. unfold Engine.setdefault. now rewrite Hk. Qed.

Lemma setdefault_other (k k' : string) (v : PyVal) (m : gmap string PyVal) :
  k <> k' -> Engine.setdefault k v m !! k' = m !! k'.
Proof.
  intros Hne. unfold Engine.setdefault.
  destruct (m !! k); [reflexivity | now apply lookup_insert_ne].
Qed.

(** Nothing supplied: the key is absent, or holds [None]. *)
Lemma resolve_undefined_default (options : gmap string PyVal) :
  default VNone (options !! "undefined") = VNone ->
  Engine.resolve_undefined h options
  = Ok (<["undefined" := default_undefined h]> (delete "undefined" options)).
Proof.
  intros Hnone. unfold Engine.resolve_undefined, Engine.pop. rewrite Hnone. simpl.
  unfold default_undefined.
  destruct (settings_DEBUG h);
    now rewrite setdefault_absent by apply lookup_delete_eq.
Qed.

Lemma resolve_undefined_string (options : gmap string PyVal) (s : string) :
  options !! "undefined" = Some (VStr s) ->
  Engine.resolve_undefined h options
  = (c <~ utils_load_class h s ;; Ok (<["undefined" := c]> (delete "undefined" options))).
Proof.
  intros Hs. unfold Engine.resolve_undefined, Engine.pop. rewrite Hs. simpl.
  destruct (utils_load_class h s) as [c|x]; [| reflexivity]. simpl.
  destruct (settings_DEBUG h);
    now rewrite (setdefault_present _ _ c) by apply lookup_insert_eq.
Qed.

Lemma resolve_undefined_value (options : gmap string PyVal) (v : PyVal) :
  options !! "undefined" = Some v -> v <> VNone -> is_string v = false ->
  Engine.resolve_undefined h options
  = Ok (<["undefined" := v]> (delete "undefined" options)).
Proof.
  intros Hv Hnn Hns. unfold Engine.resolve_undefined, Engine.pop. rewrite Hv. simpl.
  destruct v; try discriminate; try contradiction; simpl;
    destruct (settings_DEBUG h);
    now erewrite setdefault_present by apply lookup_insert_eq.
Qed.

End UndefinedFacts.

(** C4, as stated, fails on the fallback outside debug mode: it is
    jinja2's plain [Undefined], which prints a missing variable as
    nothing, not [StrictUndefined], which raises. *)
Lemma C4_counterexample_fallback_is_not_strict :
  let h := Sample.host false None in
  settings_DEBUG h = false
  /\ exists e,
       Engine.__init__ h (Sample.params []) = Ok e
       /\ env_options (env e) !! "undefined" = Some jinja2_Undefined
       /\ policy_of jinja2_Undefined = Some Silent
       /\ jinja2_Undefined <> jinja2_StrictUndefined.
Proof.
  cbv zeta. split; [reflexivity |]. eexists.
  split; [vm_compute; reflexivity |]. split; [vm_compute; reflexivity |].
  split; [reflexivity | discriminate].
Qed.

(** C4, amended.  When the caller supplies no [undefined] option (or
    [None]), the option handed on is jinja2's [DebugUndefined] if the
    host's [DEBUG] is set and jinja2's plain [Undefined] (the silent
    one) otherwise; a string is resolved with [utils.load_class] and the
    class it names is handed on, a failure to resolve being raised; any
    other value is handed on as it is. *)
Theorem C4_undefined_option_resolution (h : Host) (options : gmap string PyVal) :
  (default VNone (options !! "undefined") = VNone ->
     exists options',
       Engine.resolve_undefined h options = Ok options'
       /\ options' !! "undefined"
          = Some (if settings_DEBUG h then jinja2_DebugUndefined else jinja2_Undefined)
       /\ (options' !! "undefined" ≫= policy_of)
          = Some (if settings_DEBUG h then DebugVerbose else Silent))
  /\ (forall s c,
        options !! "undefined" = Some (VStr s) -> utils_load_class h s = Ok c ->
        exists options',
          Engine.resolve_undefined h options = Ok options'
          /\ options' !! "undefined" = Some c)
  /\ (forall s x,
        options !! "undefined" = Some (VStr s) -> utils_load_class h s = Raise x ->
        Engine.resolve_undefined h options = Raise x)
  /\ (forall v,
        options !! "undefined" = Some v -> v <> VNone -> is_string v = false ->
        exists options',
          Engine.resolve_undefined h options = Ok options'
          /\ options' !! "undefined" = Some v).
Proof.
  split; [| split; [| split]].
  - intros Hnone. rewrite resolve_undefined_default by exact Hnone.
    eexists. split; [reflexivity |]. rewrite lookup_insert_eq.
    unfold default_undefined. split; now destruct (settings_DEBUG h).
  - intros s c Hs Hc. rewrite (resolve_undefined_string h options s Hs), Hc.
    eexists. split; [reflexivity | apply lookup_insert_eq].
  - intros s x Hs Hx. now rewrite (resolve_undefined_string h options s Hs), Hx.
  - intros v Hv Hnn Hns. rewrite (resolve_undefined_value h options v Hv Hnn Hns).
    eexists. split; [reflexivity | apply lookup_insert_eq].
Qed.

(** ** Installing the builtins *)

Section BuiltinFacts.
Variable h : Host.

(** What [insert] writes for a value. *)
Lemma insert_builtin_ok (data d : gmap string PyVal) (name : string) (value : PyVal) :
  Engine.insert_builtin h data name value = Ok d ->
  exists c, d = <[name := c]> data
            /\ match value with
               | VStr s => import_string h s = Ok c
               | _ => c = value
               end.
Proof.
  unfold Engine.insert_builtin.
  destruct value; simpl; try (intros [= <-]; eauto).
  destruct (import_string h s) as [c|x]; simpl; [| discriminate].
  intros [= <-]. eauto.
Qed.

(** The loop leaves the names it is not given as they were. *)
Lemma insert_all_other (l : list (string * PyVal)) :
  forall (data d : gmap string PyVal) (name : string),
    Engine.insert_all h data l = Ok d -> name ∉ l.*1 -> d !! name = data !! name.
Proof.
  induction l as [|[n v] l IH]; intros data d name Hrun Hnot.
  - now injection Hrun as <-.
  - simpl in Hrun, Hnot. apply not_elem_of_cons in Hnot as [Hne Hnot].
    destruct (Engine.insert_builtin h data n v) as [d1|x] eqn:Hins; [| discriminate].
    simpl in Hrun. apply insert_builtin_ok in Hins as (c & -> & _).
    rewrite (IH _ _ _ Hrun Hnot). now apply lookup_insert_ne.
Qed.

(** A string entry of a table, once the loop has run: resolved. *)
Lemma insert_all_string (l : list (string * PyVal)) :
  forall (data d : gmap string PyVal) (name s : string),
    NoDup l.*1 -> Engine.insert_all h data l = Ok d -> (name, VStr s) ∈ l ->
    exists c, import_string h s = Ok c /\ d !! name = Some c.
Proof.
  induction l as [|[n v] l IH]; intros data d name s Hnd Hrun Hin.
  - now apply elem_of_nil in Hin.
  - simpl in Hrun, Hnd. apply NoDup_cons in Hnd as [Hfresh Hnd].
    destruct (Engine.insert_builtin h data n v) as [d1|x] eqn:Hins; [| discriminate].
    simpl in Hrun. apply elem_of_cons in Hin as [[= <- <-]|Hin].
    + apply insert_builtin_ok in Hins as (c & -> & Hc). exists c. split; [exact Hc |].
      rewrite (insert_all_other _ _ _ _ Hrun Hfresh). apply lookup_insert_eq.
    + now apply (IH d1 d name s).
Qed.

(** An entry that is no string: installed as it is. *)
Lemma insert_all_value (l : list (string * PyVal)) :
  forall (data d : gmap string PyVal) (name : string) (v : PyVal),
    NoDup l.*1 -> Engine.insert_all h data l = Ok d -> (name, v) ∈ l ->
    is_string v = false -> d !! name = Some v.
Proof.
  induction l as [|[n x] l IH]; intros data d name v Hnd Hrun Hin Hns.
  - now apply elem_of_nil in Hin.
  - simpl in Hrun, Hnd. apply NoDup_cons in Hnd as [Hfresh Hnd].
    destruct (Engine.insert_builtin h data n x) as [d1|y] eqn:Hins; [| discriminate].
    simpl in Hrun. apply elem_of_cons in Hin as [[= <- <-]|Hin].
    + apply insert_builtin_ok in Hins as (c & -> & Hc).
      rewrite (insert_all_other _ _ _ _ Hrun Hfresh), lookup_insert_eq.
      destruct v; try discriminate; now subst c.
    + now apply (IH d1 d name v).
Qed.

(** An unresolvable string entry stops the loop. *)
Lemma insert_all_unresolvable (l : list (string * PyVal)) :
  forall (data : gmap string PyVal) (name s : string),
    (name, VStr s) ∈ l -> is_raise (import_string h s) = true ->
    is_raise (Engine.insert_all h data l) = true.
Proof.
  induction l as [|[n v] l IH]; intros data name s Hin Hbad.
  - now apply elem_of_nil in Hin.
  - simpl. apply elem_of_cons in Hin as [[= <- <-]|Hin].
    + unfold Engine.insert_builtin. simpl.
      destruct (import_string h s); [discriminate | reflexivity].
    + destruct (Engine.insert_builtin h data n v); simpl; [| reflexivity].
      now apply (IH _ name s).
Qed.

(** The constants: every pair is written, as it is. *)
Lemma assign_all_other (l : list (string * PyVal)) :
  forall (data : gmap string PyVal) (name : string),
    name ∉ l.*1 -> Engine.assign_all data l !! name = data !! name.
Proof.
  induction l as [|[n v] l IH]; intros data name Hnot; [reflexivity |].
  simpl in *. apply not_elem_of_cons in Hnot as [Hne Hnot].
  rewrite IH by exact Hnot. now apply lookup_insert_ne.
Qed.

Lemma assign_all_entry (l : list (string * PyVal)) :
  forall (data : gmap string PyVal) (name : string) (v : PyVal),
    NoDup l.*1 -> (name, v) ∈ l -> Engine.assign_all data l !! name = Some v.
Proof.
  induction l as [|[n x] l IH]; intros data name v Hnd Hin.
  - now apply elem_of_nil in Hin.
  - simpl in *. apply NoDup_cons in Hnd as [Hfresh Hnd].
    apply elem_of_cons in Hin as [[= <- <-]|Hin].
    + rewrite assign_all_other by exact Hfresh. apply lookup_insert_eq.
    + now apply IH.
Qed.

End BuiltinFacts.

Section BuiltinPhases.
Variable h : Host.

(** One of the three guarded loops of [_initialize_builtins]. *)
Lemma table_phase (table : PyVal) (data : gmap string PyVal)
      (put : gmap string PyVal -> Env) (e0 e1 : Env) :
  put data = e0 ->
  (if truthy table
   then l <~ Engine.items table ;; d <~ Engine.insert_all h data l ;; Ok (put d)
   else Ok e0) = Ok e1 ->
  exists d, e1 = put d
            /\ match table with
               | VDict l => Engine.insert_all h data l = Ok d
               | _ => d = data
               end.
Proof.
  intros Hput. destruct (truthy table) eqn:Ht.
  - destruct table; simpl; try discriminate.
    destruct (Engine.insert_all h data items) as [d|x]; simpl; [| discriminate].
    intros [= <-]. eauto.
  - intros [= <-]. exists data. split; [now symmetry |].
    destruct table; try reflexivity. now destruct items.
Qed.

(** The loop over the constants. *)
Lemma constants_phase (constants : PyVal) (e0 e1 : Env) :
  (if truthy constants
   then l <~ Engine.items constants ;;
        Ok (Engine.with_globals e0 (Engine.assign_all (env_globals e0) l))
   else Ok e0) = Ok e1 ->
  env_filters e1 = env_filters e0 /\ env_tests e1 = env_tests e0
  /\ env_globals e1 = match constants with
                      | VDict l => Engine.assign_all (env_globals e0) l
                      | _ => env_globals e0
                      end.
Proof.
  destruct (truthy constants) eqn:Ht.
  - destruct constants; simpl; try discriminate. now intros [= <-].
  - intros [= <-]. repeat split. destruct constants; try reflexivity.
    now destruct items.
Qed.

(** [_initialize_builtins], when it returns: the three name spaces. *)
Lemma initialize_builtins_ok (e e' : Env) (filters tests globals constants : PyVal) :
  Engine._initialize_builtins h e filters tests globals constants = Ok e' ->
  exists df dt dg,
    match filters with
    | VDict l => Engine.insert_all h (env_filters e) l = Ok df
    | _ => df = env_filters e
    end
    /\ match tests with
       | VDict l => Engine.insert_all h (env_tests e) l = Ok dt
       | _ => dt = env_tests e
       end
    /\ match globals with
       | VDict l => Engine.insert_all h (env_globals e) l = Ok dg
       | _ => dg = env_globals e
       end
    /\ env_filters e' = df /\ env_tests e' = dt
    /\ env_globals e' = match constants with
                        | VDict l => Engine.assign_all dg l
                        | _ => dg
                        end.
Proof.
  unfold Engine._initialize_builtins. intros Hrun.
  destruct (if truthy filters then _ else _) as [e1|x] eqn:H1; [| discriminate].
  simpl in Hrun.
  destruct (if truthy tests then _ else _) as [e2|x] eqn:H2; [| discriminate].
  simpl in Hrun.
  destruct (if truthy globals then _ else _) as [e3|x] eqn:H3; [| discriminate].
  simpl in Hrun.
  apply (table_phase filters (env_filters e) (Engine.with_filters e)) in H1
    as (df & -> & Hf); [| now destruct e].
  apply (table_phase tests _ (Engine.with_tests _)) in H2
    as (dt & -> & Ht); [| reflexivity].
  apply (table_phase globals _ (Engine.with_globals _)) in H3
    as (dg & -> & Hg); [| reflexivity].
  apply constants_phase in Hrun as (Hef & Het & Heg). simpl in *.
  exists df, dt, dg. auto 10.
Qed.

End BuiltinPhases.

(** C9.  When [_initialize_builtins] has returned, every entry of the
    constants is in the environment's globals with the value it was
    given, a string included; every string entry of the filters and of
    the tests is there as what [import_string] resolved it to, and so is
    every string entry of the globals unless a constant of the same name,
    written after it, has taken its place.  (The tables are dicts: a
    name occurs once.) *)
Theorem C9_constants_literal_other_strings_resolved
        (h : Host) (e e' : Env) (filters tests globals constants : PyVal) :
  Engine._initialize_builtins h e filters tests globals constants = Ok e' ->
  (forall l name v,
      constants = VDict l -> NoDup l.*1 -> (name, v) ∈ l ->
      env_globals e' !! name = Some v)
  /\ (forall l name s,
        filters = VDict l -> NoDup l.*1 -> (name, VStr s) ∈ l ->
        exists c, import_string h s = Ok c /\ env_filters e' !! name = Some c)
  /\ (forall l name s,
        tests = VDict l -> NoDup l.*1 -> (name, VStr s) ∈ l ->
        exists c, import_string h s = Ok c /\ env_tests e' !! name = Some c)
  /\ (forall l name s,
        globals = VDict l -> NoDup l.*1 -> (name, VStr s) ∈ l ->
        exists c, import_string h s = Ok c
                  /\ ((forall lc, constants = VDict lc -> name ∉ lc.*1) ->
                      env_globals e' !! name = Some c)).
Proof.
  intros Hrun.
  apply initialize_builtins_ok in Hrun
    as (df & dt & dg & Hf & Ht & Hg & Hef & Het & Heg).
  split; [| split; [| split]].
  - intros l name v -> Hnd Hin. rewrite Heg. now apply assign_all_entry.
  - intros l name s -> Hnd Hin. rewrite Hef.
    exact (insert_all_string h l _ df name s Hnd Hf Hin).
  - intros l name s -> Hnd Hin. rewrite Het.
    exact (insert_all_string h l _ dt name s Hnd Ht Hin).
  - intros l name s -> Hnd Hin.
    destruct (insert_all_string h l _ dg name s Hnd Hg Hin) as (c & Hc & Hdg).
    exists c. split; [exact Hc |]. intros Hfree. rewrite Heg.
    destruct constants; try exact Hdg.
    rewrite assign_all_other; [exact Hdg | now apply Hfree].
Qed.

(** C9 on one entry per table. *)
Lemma C9_witness :
  let h := Sample.host false None in
  let e := mkEnv (VObj "jinja2.Environment") ∅ ∅ ∅ ∅ in
  let filters := VDict [("markdown", VStr "markdown.markdown")] in
  let tests := VDict [("even", VStr "numbers.is_even")] in
  let globals := VDict [("now", VStr "django.utils.timezone.now")] in
  let constants := VDict [("SITE", VStr "example.org")] in
  let e' := mkEnv (VObj "jinja2.Environment") ∅
                  {[ "markdown" := VObj "markdown.markdown" ]}
                  {[ "even" := VObj "numbers.is_even" ]}
                  (<["SITE" := VStr "example.org"]>
                     {[ "now" := VObj "django.utils.timezone.now" ]}) in
  (forall l name v,
      constants = VDict l -> NoDup l.*1 -> (name, v) ∈ l ->
      env_globals e' !! name = Some v)
  /\ (forall l name s,
        filters = VDict l -> NoDup l.*1 -> (name, VStr s) ∈ l ->
        exists c, import_string h s = Ok c /\ env_filters e' !! name = Some c)
  /\ (forall l name s,
        tests = VDict l -> NoDup l.*1 -> (name, VStr s) ∈ l ->
        exists c, import_string h s = Ok c /\ env_tests e' !! name = Some c)
  /\ (forall l name s,
        globals = VDict l -> NoDup l.*1 -> (name, VStr s) ∈ l ->
        exists c, import_string h s = Ok c
                  /\ ((forall lc, constants = VDict lc -> name ∉ lc.*1) ->
                      env_globals e' !! name = Some c)).
Proof.
  cbv zeta.
  refine (C9_constants_literal_other_strings_resolved
            (Sample.host false None) (mkEnv (VObj "jinja2.Environment") ∅ ∅ ∅ ∅) _
            (VDict [("markdown", VStr "markdown.markdown")])
            (VDict [("even", VStr "numbers.is_even")])
            (VDict [("now", VStr "django.utils.timezone.now")])
            (VDict [("SITE", VStr "example.org")]) _).
  vm_compute. reflexivity.
Defined.

(** The constant is in the globals as the string it is, though the host
    would resolve that very string to an object. *)
Example constants_stay_strings :
  let h := Sample.host false None in
  import_string h "example.org" = Ok (VObj "example.org")
  /\ exists e',
       Engine._initialize_builtins h (mkEnv VNone ∅ ∅ ∅ ∅) (VDict []) (VDict [])
         (VDict [("SITE", VStr "django.conf.settings")])
         (VDict [("SITE", VStr "example.org")]) = Ok e'
       /\ env_globals e' !! "SITE" = Some (VStr "example.org").
Proof.
  cbv zeta. split; [reflexivity |]. eexists. split; [vm_compute; reflexivity |].
  vm_compute. reflexivity.
Qed.

(** ** Constructing an engine *)

Section InitFacts.
Variable h : Host.

(** [__init__] with its pops read as look-ups in the options. *)
Lemma init_run (params options : gmap string PyVal) :
  Engine.dict_copy (default (VDict []) (params !! "OPTIONS")) = Ok options ->
  Engine.__init__ h params
  = (_ <~ BaseEngine_init h (delete "OPTIONS" params) ;;
     options' <~ Engine.resolve_undefined h (forwarded_options options) ;;
     environment_cls <~
       Engine.py_import_string h
         (default (VStr "jinja2.Environment") (options !! "environment")) ;;
     env0 <~
       environment_call h environment_cls
         (Engine.setdefault "autoescape" (VBool true)
            (Engine.setdefault "auto_reload" (VBool (settings_DEBUG h))
               (Engine.setdefault "extensions" (builtins_DEFAULT_EXTENSIONS h)
                  (Engine.setdefault "loader"
                     (FileSystemLoader h
                        (BaseEngine_template_dirs h
                           (default (VStr "templates") (options !! "app_dirname"))
                           (delete "OPTIONS" params)))
                     options')))) ;;
     env1 <~
       (if settings_USE_I18N h
        then translation <~
               Engine.py_import_module h
                 (default (VStr "django.utils.translation")
                    (options !! "translation_engine")) ;;
             install_gettext_translations h env0 translation
               (default (VBool true) (options !! "newstyle_gettext"))
        else install_null_translations h env0
               (default (VBool true) (options !! "newstyle_gettext"))) ;;
     env2 <~
       Engine._initialize_builtins h env1
         (default (VDict []) (options !! "filters"))
         (default (VDict []) (options !! "tests"))
         (default (VDict []) (options !! "globals"))
         (default (VDict []) (options !! "constants")) ;;
     env3 <~ base_initialize_thirdparty h env2 ;;
     env4 <~ base_initialize_bytecode_cache h env3 ;;
     Ok (mkJinja2 (default (VStr "templates") (options !! "app_dirname"))
                  (BaseEngine_template_dirs h
                     (default (VStr "templates") (options !! "app_dirname"))
                     (delete "OPTIONS" params))
                  (default (VBool false) (options !! "debug"))
                  env4
                  (default (VList []) (options !! "context_processors"))
                  (default VNone (options !! "match_regex"))
                  (default (VStr ".jinja") (options !! "match_extension"))
                  None)).
Proof.
  intros Hcopy. unfold Engine.__init__, Engine.pop. rewrite Hcopy. simpl.
  rewrite !lookup_delete_ne by done. reflexivity.
Qed.

Lemma forwarded_lookup_undefined (options : gmap string PyVal) :
  forwarded_options options !! "undefined" = options !! "undefined".
Proof. unfold forwarded_options. now rewrite !lookup_delete_ne by done. Qed.

Lemma forwarded_ignores_processors (cp : PyVal) (options : gmap string PyVal) :
  forwarded_options (<["context_processors" := cp]> options)
  = forwarded_options options.
Proof.
  unfold forwarded_options.
  rewrite !(delete_insert_ne _ _ "context_processors") by done.
  now rewrite delete_insert_eq.
Qed.

Lemma import_all_unresolvable (paths : list PyVal) (s : string) :
  VStr s ∈ paths -> is_raise (import_string h s) = true ->
  is_raise (Engine.import_all h paths) = true.
Proof.
  induction paths as [|p ps IH]; intros Hin Hbad.
  - now apply elem_of_nil in Hin.
  - simpl. apply elem_of_cons in Hin as [<-|Hin].
    + simpl. destruct (import_string h s); [discriminate | reflexivity].
    + destruct (Engine.py_import_string h p); simpl; [| reflexivity].
      specialize (IH Hin Hbad).
      destruct (Engine.import_all h ps); [discriminate | reflexivity].
Qed.

(** The first read of [context_processors] on an engine one of whose
    references does not resolve: it raises, and the slot stays empty. *)
Lemma context_processors_unresolvable (self : nat) (e : Jinja2) (l : list PyVal)
      (s : string) (w : World) :
  w_engines w !! self = Some e -> cp_cache e = None ->
  _context_processors e = VList l -> VStr s ∈ l ->
  is_raise (import_string h s) = true ->
  exists x, Engine.context_processors h self w = (Raise x, w).
Proof.
  intros He Hc Hl Hin Hbad.
  unfold Engine.context_processors, Engine.get_engine, bind, get_world, ret, lift.
  simpl. rewrite He, Hc, Hl. simpl.
  pose proof (import_all_unresolvable l s Hin Hbad) as Hr.
  destruct (Engine.import_all h l) as [ps|x]; [discriminate |]. eauto.
Qed.

(** Then no call to [render] with a request returns. *)
Lemma render_request_unresolvable (t : Template) (e : Jinja2) (l : list PyVal)
      (s : string) (context : option nat) (request : nat) (w : World) :
  w_engines w !! backend t = Some e -> cp_cache e = None ->
  _context_processors e = VList l -> VStr s ∈ l ->
  is_raise (import_string h s) = true ->
  is_raise (fst (Wrapper.render h t context (Some request) w)) = true.
Proof.
  intros He Hc Hl Hin Hbad.
  assert (Hcp : forall w0, w_engines w0 = w_engines w ->
                  exists x, Engine.context_processors h (backend t) w0 = (Raise x, w0)).
  { intros w0 Hw0. apply (context_processors_unresolvable _ e l s); try assumption.
    now rewrite Hw0. }
  assert (Has : forall l0 w0, w_engines w0 = w_engines w ->
                  is_raise (fst (Wrapper.assemble h t (Some l0) (Some request) w0)) = true).
  { intros l0 w0 Hw0. unfold Wrapper.assemble.
    unfold bind at 1. unfold ret at 1. unfold bind at 1. unfold bind at 1.
    unfold Wrapper.ctx_setitem at 1. unfold bind at 1. unfold Wrapper.read_ctx at 1.
    destruct (w_ctxs w0 !! l0) as [o|] eqn:Hl0; [| reflexivity].
    unfold modify at 1. unfold bind at 1. unfold Wrapper.alloc_lazy at 1.
    unfold bind at 1.
    erewrite ctx_setitem_run by (simpl; apply lookup_insert_eq).
    unfold bind at 1.
    match goal with
    | |- context [Engine.context_processors h (backend t) ?w1] =>
        destruct (Hcp w1) as [x ->]; [exact Hw0 | reflexivity]
    end. }
  unfold Wrapper.render. unfold bind at 1.
  destruct context as [l0|].
  - specialize (Has l0 w eq_refl).
    destruct (Wrapper.assemble h t (Some l0) (Some request) w) as [[a|x] w1];
      [discriminate | reflexivity].
  - rewrite assemble_default_context.
    specialize (Has (fresh (dom (w_ctxs w)))
                    (set_ctxs <[fresh (dom (w_ctxs w)) := mkCtx false ∅]> w) eq_refl).
    destruct (Wrapper.assemble h t _ (Some request) _) as [[a|x] w1];
      [discriminate | reflexivity].
Qed.

End InitFacts.

Section InitFailures.
Variable h : Host.

Local Ltac stage :=
  match goal with
  | |- is_raise (res_bind ?r _) = true =>
      destruct r eqn:?; cbn [res_bind]; [| reflexivity]
  | |- is_raise (res_bind ?r _) = is_raise (res_bind ?r _) =>
      destruct r eqn:?; cbn [res_bind]; [| reflexivity]
  end.

Lemma nonempty_dict_truthy (l : list (string * PyVal)) (entry : string * PyVal) :
  entry ∈ l -> truthy (VDict l) = true.
Proof. destruct l; [intros H0; now apply elem_of_nil in H0 | reflexivity]. Qed.

(** An unresolvable string in one of the three tables stops
    [_initialize_builtins]. *)
Lemma initialize_builtins_unresolvable (e : Env) (filters tests globals constants : PyVal)
      (l : list (string * PyVal)) (name s : string) :
  filters = VDict l \/ tests = VDict l \/ globals = VDict l ->
  (name, VStr s) ∈ l -> is_raise (import_string h s) = true ->
  is_raise (Engine._initialize_builtins h e filters tests globals constants) = true.
Proof.
  intros Hwhich Hin Hbad. unfold Engine._initialize_builtins.
  pose proof (nonempty_dict_truthy l _ Hin) as Htruthy.
  assert (Hloop : forall data, is_raise (Engine.insert_all h data l) = true)
    by (intros data; now apply (insert_all_unresolvable h l data name s)).
  destruct Hwhich as [-> | Hwhich].
  { rewrite Htruthy. simpl. specialize (Hloop (env_filters e)).
    destruct (Engine.insert_all h (env_filters e) l); [discriminate | reflexivity]. }
  stage. destruct Hwhich as [-> | ->].
  { rewrite Htruthy. simpl.
    match goal with |- context [Engine.insert_all h ?d l] => specialize (Hloop d) end.
    destruct (Engine.insert_all h _ l); [discriminate | reflexivity]. }
  stage. rewrite Htruthy. simpl.
  match goal with |- context [Engine.insert_all h ?d l] => specialize (Hloop d) end.
  destruct (Engine.insert_all h _ l); [discriminate | reflexivity].
Qed.

Lemma init_unresolvable_undefined (params options : gmap string PyVal) (s : string) :
  Engine.dict_copy (default (VDict []) (params !! "OPTIONS")) = Ok options ->
  options !! "undefined" = Some (VStr s) ->
  is_raise (utils_load_class h s) = true ->
  is_raise (Engine.__init__ h params) = true.
Proof.
  intros Hcopy Hs Hbad. rewrite (init_run h params options Hcopy). stage.
  rewrite (resolve_undefined_string h _ s)
    by (rewrite forwarded_lookup_undefined; exact Hs).
  destruct (utils_load_class h s); [discriminate | reflexivity].
Qed.

Lemma init_unresolvable_environment (params options : gmap string PyVal) (s : string) :
  Engine.dict_copy (default (VDict []) (params !! "OPTIONS")) = Ok options ->
  default (VStr "jinja2.Environment") (options !! "environment") = VStr s ->
  is_raise (import_string h s) = true ->
  is_raise (Engine.__init__ h params) = true.
Proof.
  intros Hcopy Hs Hbad. rewrite (init_run h params options Hcopy), Hs.
  stage. stage. simpl. destruct (import_string h s); [discriminate | reflexivity].
Qed.

Lemma init_unresolvable_translation (params options : gmap string PyVal) (s : string) :
  Engine.dict_copy (default (VDict []) (params !! "OPTIONS")) = Ok options ->
  settings_USE_I18N h = true ->
  default (VStr "django.utils.translation") (options !! "translation_engine") = VStr s ->
  is_raise (import_module h s) = true ->
  is_raise (Engine.__init__ h params) = true.
Proof.
  intros Hcopy Hi18n Hs Hbad. rewrite (init_run h params options Hcopy), Hs, Hi18n.
  stage. stage. stage. stage. simpl.
  destruct (import_module h s); [discriminate | reflexivity].
Qed.

Lemma init_unresolvable_builtin (params options : gmap string PyVal)
      (table : string) (l : list (string * PyVal)) (name s : string) :
  Engine.dict_copy (default (VDict []) (params !! "OPTIONS")) = Ok options ->
  table ∈ ["filters"; "tests"; "globals"] ->
  options !! table = Some (VDict l) ->
  (name, VStr s) ∈ l -> is_raise (import_string h s) = true ->
  is_raise (Engine.__init__ h params) = true.
Proof.
  intros Hcopy Htable Hl Hin Hbad. rewrite (init_run h params options Hcopy).
  stage. stage. stage. stage. stage.
  match goal with
  | |- is_raise (res_bind (Engine._initialize_builtins h ?e ?f ?t ?g ?c) _) = true =>
      assert (Hr : is_raise (Engine._initialize_builtins h e f t g c) = true)
  end.
  { apply (initialize_builtins_unresolvable _ _ _ _ _ l name s); try assumption.
    repeat (apply elem_of_cons in Htable as [-> | Htable]);
      [| | | now apply elem_of_nil in Htable]; rewrite Hl; simpl; auto. }
  destruct (Engine._initialize_builtins h _ _ _ _ _); [discriminate | reflexivity].
Qed.

(** The outcome of [__init__] does not depend on the processors given. *)
Lemma init_ignores_processors (params params' options : gmap string PyVal) (cp : PyVal) :
  Engine.dict_copy (default (VDict []) (params !! "OPTIONS")) = Ok options ->
  Engine.dict_copy (default (VDict []) (params' !! "OPTIONS"))
  = Ok (<["context_processors" := cp]> options) ->
  delete "OPTIONS" params' = delete "OPTIONS" params ->
  is_raise (Engine.__init__ h params') = is_raise (Engine.__init__ h params).
Proof.
  intros Hcopy Hcopy' Hrest.
  rewrite (init_run h params options Hcopy), (init_run h params' _ Hcopy').
  rewrite forwarded_ignores_processors, Hrest.
  rewrite !(lookup_insert_ne _ "context_processors") by done.
  repeat stage. reflexivity.
Qed.

Lemma init_keeps_processors (params options : gmap string PyVal) (e : Jinja2) :
  Engine.dict_copy (default (VDict []) (params !! "OPTIONS")) = Ok options ->
  Engine.__init__ h params = Ok e ->
  _context_processors e = default (VList []) (options !! "context_processors")
  /\ cp_cache e = None.
Proof.
  intros Hcopy. rewrite (init_run h params options Hcopy).
  repeat match goal with
         | |- res_bind ?r _ = Ok _ -> _ => destruct r; simpl; [| discriminate]
         end.
  now intros [= <-].
Qed.

End InitFailures.

(** C3, as stated, fails for the context processors: an engine whose
    only processor reference does not resolve is constructed all the
    same, renders without a request, and raises the import error at the
    first [render] with a request. *)
Lemma C3_counterexample_processor_reference_deferred :
  let h := Sample.host false None in
  let options := [("context_processors", VList [VStr "missing.processor"])] in
  let w := Sample.world h options ∅ in
  is_raise (import_string h "missing.processor") = true
  /\ is_raise (Engine.__init__ h (Sample.params options)) = false
  /\ fst (Wrapper.render h (Sample.handle false) (Some 0) None w) = Ok (VStr "<html>")
  /\ fst (Wrapper.render h (Sample.handle false) (Some 0) (Some 7) w)
     = Raise (Sample.import_error "missing.processor").
Proof.
  cbv zeta. repeat split; vm_compute; reflexivity.
Qed.

(** C3, amended.  A string that does not resolve makes the
    construction of the engine fail when it is given for [undefined],
    for [environment], as an entry of [filters], [tests] or [globals],
    or, with i18n on, for [translation_engine].  The context processors
    are not resolved by the construction: the engine keeps the
    references as given, with nothing resolved yet, and whether the
    construction fails does not depend on them; a reference among them
    that does not resolve makes the first read of [context_processors]
    raise, that is every [render] with a request. *)
Theorem C3_unresolvable_reference_fails_construction_except_processors
        (h : Host) (params options : gmap string PyVal) :
  Engine.dict_copy (default (VDict []) (params !! "OPTIONS")) = Ok options ->
  (forall s, options !! "undefined" = Some (VStr s) ->
             is_raise (utils_load_class h s) = true ->
             is_raise (Engine.__init__ h params) = true)
  /\ (forall s, default (VStr "jinja2.Environment") (options !! "environment") = VStr s ->
                is_raise (import_string h s) = true ->
                is_raise (Engine.__init__ h params) = true)
  /\ (forall table l name s,
        table ∈ ["filters"; "tests"; "globals"] ->
        options !! table = Some (VDict l) -> (name, VStr s) ∈ l ->
        is_raise (import_string h s) = true ->
        is_raise (Engine.__init__ h params) = true)
  /\ (forall s, settings_USE_I18N h = true ->
                default (VStr "django.utils.translation")
                        (options !! "translation_engine") = VStr s ->
                is_raise (import_module h s) = true ->
                is_raise (Engine.__init__ h params) = true)
  /\ (forall e, Engine.__init__ h params = Ok e ->
                _context_processors e
                = default (VList []) (options !! "context_processors")
                /\ cp_cache e = None)
  /\ (forall cp params',
        Engine.dict_copy (default (VDict []) (params' !! "OPTIONS"))
        = Ok (<["context_processors" := cp]> options) ->
        delete "OPTIONS" params' = delete "OPTIONS" params ->
        is_raise (Engine.__init__ h params') = is_raise (Engine.__init__ h params))
  /\ (forall e l s t w,
        w_engines w !! backend t = Some e -> cp_cache e = None ->
        _context_processors e = VList l -> VStr s ∈ l ->
        is_raise (import_string h s) = true ->
        (exists x, Engine.context_processors h (backend t) w = (Raise x, w))
        /\ forall context request,
             is_raise (fst (Wrapper.render h t context (Some request) w)) = true).
Proof.
  intros Hcopy. repeat split.
  - intros s. now apply init_unresolvable_undefined.
  - intros s. now apply init_unresolvable_environment.
  - intros table l name s. now apply init_unresolvable_builtin.
  - intros s. now apply init_unresolvable_translation.
  - now apply (init_keeps_processors h params options e Hcopy).
  - now apply (init_keeps_processors h params options e Hcopy).
  - intros cp params'. now apply init_ignores_processors.
  - now apply (context_processors_unresolvable h _ e l s).
  - intros context request. now apply (render_request_unresolvable h t e l s).
Qed.

(** C3, amended, on options with an unresolvable filter and an
    unresolvable processor. *)
Lemma C3_witness :
  let h := Sample.host false None in
  let given := [("filters", VDict [("markdown", VStr "missing.markdown")]);
                ("context_processors", VList [VStr "missing.processor"])] in
  let params := Sample.params given in
  let options : gmap string PyVal := list_to_map given in
  (forall s, options !! "undefined" = Some (VStr s) ->
             is_raise (utils_load_class h s) = true ->
             is_raise (Engine.__init__ h params) = true)
  /\ (forall s, default (VStr "jinja2.Environment") (options !! "environment") = VStr s ->
                is_raise (import_string h s) = true ->
                is_raise (Engine.__init__ h params) = true)
  /\ (forall table l name s,
        table ∈ ["filters"; "tests"; "globals"] ->
        options !! table = Some (VDict l) -> (name, VStr s) ∈ l ->
        is_raise (import_string h s) = true ->
        is_raise (Engine.__init__ h params) = true)
  /\ (forall s, settings_USE_I18N h = true ->
                default (VStr "django.utils.translation")
                        (options !! "translation_engine") = VStr s ->
                is_raise (import_module h s) = true ->
                is_raise (Engine.__init__ h params) = true)
  /\ (forall e, Engine.__init__ h params = Ok e ->
                _context_processors e
                = default (VList []) (options !! "context_processors")
                /\ cp_cache e = None)
  /\ (forall cp params',
        Engine.dict_copy (default (VDict []) (params' !! "OPTIONS"))
        = Ok (<["context_processors" := cp]> options) ->
        delete "OPTIONS" params' = delete "OPTIONS" params ->
        is_raise (Engine.__init__ h params') = is_raise (Engine.__init__ h params))
  /\ (forall e l s t w,
        w_engines w !! backend t = Some e -> cp_cache e = None ->
        _context_processors e = VList l -> VStr s ∈ l ->
        is_raise (import_string h s) = true ->
        (exists x, Engine.context_processors h (backend t) w = (Raise x, w))
        /\ forall context request,
             is_raise (fst (Wrapper.render h t context (Some request) w)) = true).
Proof.
  exact (C3_unresolvable_reference_fails_construction_except_processors
           (Sample.host false None)
           (Sample.params
              [("filters", VDict [("markdown", VStr "missing.markdown")]);
               ("context_processors", VList [VStr "missing.processor"])])
           (list_to_map
              [("filters", VDict [("markdown", VStr "missing.markdown")]);
               ("context_processors", VList [VStr "missing.processor"])])
           eq_refl).
Defined.

(** The filter reference of that engine does stop its construction. *)
Example unresolvable_filter_stops_construction :
  Engine.__init__ (Sample.host false None)
    (Sample.params [("filters", VDict [("markdown", VStr "missing.markdown")]);
                    ("context_processors", VList [VStr "missing.processor"])])
  = Raise (Sample.import_error "missing.markdown").
Proof. vm_compute. reflexivity. Qed.

(** * Further properties *)

(** ** Rendering with a request *)

Section RequestFacts.
Variable h : Host.

(** A call with a request that returns, on the caller's mapping [l]:
    what the compiled template is handed, and the events in their
    order. *)
Lemma render_request_full (self : Template) (l request : nat) (o : CtxObj)
      (w w' : World) (out : PyVal) :
  w_ctxs w !! l = Some o ->
  Wrapper.render h self (Some l) (Some request) w = (Ok out, w') ->
  exists ps ds e l',
    w_engines w' !! backend self = Some e /\ cp_cache e = Some ps
    /\ Forall2 (fun p d => call_processor h p request = Ok d) ps ds
    /\ compiled_render h (template self)
         (overlay ds
            (<["csrf_token" := VLazy (fresh (dom (w_lazies w)))]>
               (<["request" := VRequest request]> (ctx_items o)))) = Ok out
    /\ w_log w'
       = (EvCompiledRender (template self)
            (overlay ds
               (<["csrf_token" := VLazy (fresh (dom (w_lazies w)))]>
                  (<["request" := VRequest request]> (ctx_items o))))
            :: (if truthy (_debug self) then [EvTemplateRendered self self l'] else [])
            ++ processor_events request ps ++ w_log w)%list.
Proof.
  intros Hl. unfold Wrapper.render. unfold bind at 1.
  destruct (Wrapper.assemble h self (Some l) (Some request) w) as [[l2|x] w1] eqn:Has;
    [| discriminate].
  destruct (assemble_request_ok h _ _ _ _ _ _ _ Hl Has)
    as (-> & ps & ds & e & He & Hcache & Hds & Hctx & _ & Hlog1).
  assert (Hl1 : w_ctxs w1 !! l
                = Some (mkCtx (is_base_context o)
                          (overlay ds
                             (<["csrf_token" := VLazy (fresh (dom (w_lazies w)))]>
                                (<["request" := VRequest request]> (ctx_items o))))))
    by (rewrite Hctx; apply lookup_insert_eq).
  destruct (debug_signal_run self l _ w1 Hl1)
    as (l' & o' & w2 & Hrun & _ & Hl' & Hitems & _ & Heng & Hlog2).
  unfold bind at 1. rewrite Hrun.
  unfold bind at 1. rewrite (read_ctx_run l' o') by exact Hl'.
  unfold bind, emit, modify, lift. rewrite Hitems. simpl.
  destruct (compiled_render h (template self) _) as [v|x] eqn:Hout; [| discriminate].
  intros [= <- <-]. simpl. exists ps, ds, e, l'. rewrite Heng, Hlog2, Hlog1.
  repeat split; assumption.
Qed.

(** A call without a mapping works on a new, empty one. *)
Lemma render_default_context (self : Template) (request : option nat) (w : World) :
  Wrapper.render h self None request w
  = Wrapper.render h self (Some (fresh (dom (w_ctxs w)))) request
      (set_ctxs <[fresh (dom (w_ctxs w)) := mkCtx false ∅]> w).
Proof. unfold Wrapper.render, bind. now rewrite assemble_default_context. Qed.

(** The mapping the caller passed, as an object of the store to run on. *)
Lemma render_on_caller_items (self : Template) (context request : option nat)
      (w : World) (items : gmap string PyVal) :
  caller_items w context = Some items ->
  exists l o w0,
    Wrapper.render h self context request w = Wrapper.render h self (Some l) request w0
    /\ w_ctxs w0 !! l = Some o /\ ctx_items o = items
    /\ w_log w0 = w_log w /\ w_lazies w0 = w_lazies w
    /\ w_engines w0 = w_engines w.
Proof.
  intros Hitems. destruct context as [l|]; simpl in Hitems.
  - destruct (w_ctxs w !! l) as [o|] eqn:Hl; [| discriminate].
    injection Hitems as <-. exists l, o, w. auto 10.
  - injection Hitems as <-.
    exists (fresh (dom (w_ctxs w))), (mkCtx false ∅),
      (set_ctxs <[fresh (dom (w_ctxs w)) := mkCtx false ∅]> w).
    split; [apply render_default_context |]. simpl.
    split; [apply lookup_insert_eq | auto].
Qed.

(** Keys of the contributions win over the base, a later one over an
    earlier one. *)
Lemma overlay_lookup (k : string) (ds : list (gmap string PyVal)) :
  forall base : gmap string PyVal,
    overlay ds base !! k
    = match latest k ds with
      | Some v => Some v
      | None => base !! k
      end.
Proof.
  induction ds as [|d ds IH]; intros base; [reflexivity |].
  unfold overlay in *. simpl. rewrite IH.
  destruct (latest k ds); [reflexivity |].
  rewrite lookup_union. destruct (d !! k), (base !! k); reflexivity.
Qed.

End RequestFacts.

(** X1.  A call to [render] with a request, when it returns: every
    context processor of the engine has been called once with the
    request, in the engine's order, then the debug signal was sent (by a
    handle in debug mode), then the compiled template was handed the
    processors' contributions laid over [csrf_token] and [request], laid
    over the caller's pairs; the result is the compiled template's. *)
Theorem X1_render_with_request_assembles_context
        (h : Host) (self : Template) (context : option nat) (request : nat)
        (w w' : World) (out : PyVal) (items : gmap string PyVal) :
  caller_items w context = Some items ->
  Wrapper.render h self context (Some request) w = (Ok out, w') ->
  exists ps ds e l' cell,
    w_engines w' !! backend self = Some e /\ cp_cache e = Some ps
    /\ Forall2 (fun p d => call_processor h p request = Ok d) ps ds
    /\ compiled_render h (template self)
         (overlay ds
            (<["csrf_token" := VLazy cell]>
               (<["request" := VRequest request]> items))) = Ok out
    /\ w_log w'
       = (EvCompiledRender (template self)
            (overlay ds
               (<["csrf_token" := VLazy cell]>
                  (<["request" := VRequest request]> items)))
            :: (if truthy (_debug self) then [EvTemplateRendered self self l'] else [])
            ++ processor_events request ps ++ w_log w)%list.
Proof.
  intros Hitems Hrun.
  destruct (render_on_caller_items h self context (Some request) w items Hitems)
    as (l & o & w0 & Heq & Hl & <- & Hlog0 & Hz0 & _).
  rewrite Heq in Hrun.
  destruct (render_request_full h _ _ _ _ _ _ _ Hl Hrun)
    as (ps & ds & e & l' & He & Hcache & Hds & Hout & Hlog).
  exists ps, ds, e, l', (fresh (dom (w_lazies w0))).
  rewrite <- Hlog0. auto.
Qed.

(** X1 on a debug-mode handle and an engine with two processors. *)
Lemma X1_witness :
  let h := Sample.host false None in
  let w := Sample.world h
             [("context_processors", VList [VStr "procs.user"; VStr "procs.csrf"])]
             {[ "a" := VStr "1" ]} in
  let self := Sample.handle true in
  let w' := snd (Wrapper.render h self (Some 0) (Some 7) w) in
  exists ps ds e l' cell,
    w_engines w' !! 0%nat = Some e /\ cp_cache e = Some ps
    /\ Forall2 (fun p d => Sample.processor p 7 = Ok d) ps ds
    /\ Ok (VStr "<html>") = Ok (VStr "<html>")
    /\ w_log w'
       = (EvCompiledRender (CompiledTemplate 0)
            (overlay ds
               (<["csrf_token" := VLazy cell]>
                  (<["request" := VRequest 7]> {[ "a" := VStr "1" ]})))
            :: [EvTemplateRendered self self l']
            ++ processor_events 7 ps ++ w_log w)%list.
Proof.
  cbv zeta.
  refine (X1_render_with_request_assembles_context
            (Sample.host false None) (Sample.handle true) (Some 0) 7
            (Sample.world (Sample.host false None)
               [("context_processors", VList [VStr "procs.user"; VStr "procs.csrf"])]
               {[ "a" := VStr "1" ]})
            _ (VStr "<html>") {[ "a" := VStr "1" ]} eq_refl _).
  vm_compute. reflexivity.
Defined.

(** X2.  In the context a call with a request hands the compiled
    template, a key that context processors contribute holds the value
    of the last processor that contributes it, whatever the caller's
    mapping, [request] or [csrf_token] gave it; a key no processor
    contributes holds [request] or [csrf_token] as set by the call, or
    else the caller's value. *)
Theorem X2_later_processor_wins
        (h : Host) (self : Template) (context : option nat) (request : nat)
        (w w' : World) (out : PyVal) (items : gmap string PyVal) :
  caller_items w context = Some items ->
  Wrapper.render h self context (Some request) w = (Ok out, w') ->
  exists ps ds e handed cell,
    w_engines w' !! backend self = Some e /\ cp_cache e = Some ps
    /\ Forall2 (fun p d => call_processor h p request = Ok d) ps ds
    /\ head (w_log w') = Some (EvCompiledRender (template self) handed)
    /\ forall k,
         handed !! k
         = match latest k ds with
           | Some v => Some v
           | None =>
               if decide (k = "csrf_token") then Some (VLazy cell)
               else if decide (k = "request") then Some (VRequest request)
               else items !! k
           end.
Proof.
  intros Hitems Hrun.
  destruct (render_on_caller_items h self context (Some request) w items Hitems)
    as (l & o & w0 & Heq & Hl & <- & _).
  rewrite Heq in Hrun.
  destruct (render_request_full h _ _ _ _ _ _ _ Hl Hrun)
    as (ps & ds & e & l' & He & Hcache & Hds & _ & Hlog).
  exists ps, ds, e. eexists _, (fresh (dom (w_lazies w0))).
  split; [exact He |]. split; [exact Hcache |]. split; [exact Hds |].
  split; [rewrite Hlog; reflexivity |].
  intros k. rewrite overlay_lookup. destruct (latest k ds); [reflexivity |].
  rewrite lookup_insert. case_decide as Hk1.
  - subst k. now rewrite decide_True.
  - rewrite decide_False by congruence.
    rewrite lookup_insert. case_decide as Hk2.
    + subst k. now rewrite decide_True.
    + now rewrite decide_False by congruence.
Qed.

(** X2 on two processors that both contribute [csrf_token] or [user]. *)
Lemma X2_witness :
  let h := Sample.host false None in
  let w := Sample.world h
             [("context_processors", VList [VStr "procs.csrf"; VStr "procs.user"])]
             {[ "user" := VStr "bob" ]} in
  let self := Sample.handle false in
  let w' := snd (Wrapper.render h self (Some 0) (Some 7) w) in
  exists ps ds e handed cell,
    w_engines w' !! 0%nat = Some e /\ cp_cache e = Some ps
    /\ Forall2 (fun p d => Sample.processor p 7 = Ok d) ps ds
    /\ head (w_log w') = Some (EvCompiledRender (CompiledTemplate 0) handed)
    /\ forall k,
         handed !! k
         = match latest k ds with
           | Some v => Some v
           | None =>
               if decide (k = "csrf_token") then Some (VLazy cell)
               else if decide (k = "request") then Some (VRequest 7)
               else ({[ "user" := VStr "bob" ]} : gmap string PyVal) !! k
           end.
Proof.
  cbv zeta.
  refine (X2_later_processor_wins
            (Sample.host false None) (Sample.handle false) (Some 0) 7
            (Sample.world (Sample.host false None)
               [("context_processors", VList [VStr "procs.csrf"; VStr "procs.user"])]
               {[ "user" := VStr "bob" ]})
            _ (VStr "<html>") {[ "user" := VStr "bob" ]} eq_refl _).
  vm_compute. reflexivity.
Defined.

(** ** A processor that raises *)

Section ProcessorFailure.
Variable h : Host.

(** Reading [context_processors] on an engine of the store. *)
Lemma context_processors_run (self : nat) (e : Jinja2) (w : World) :
  w_engines w !! self = Some e ->
  Engine.context_processors h self w
  = match resolved_processors h e with
    | Ok ps =>
        (Ok ps,
         match cp_cache e with
         | Some _ => w
         | None =>
             set_engines
               <[self := mkJinja2 (app_dirname e) (template_dirs e) (tmpl_debug e)
                                  (env e) (_context_processors e) (_match_regex e)
                                  (_match_extension e) (Some ps)]> w
         end)
    | Raise x => (Raise x, w)
    end.
Proof.
  intros He.
  unfold Engine.context_processors, Engine.get_engine, resolved_processors, bind,
    get_world, ret, lift, modify. simpl. rewrite He.
  destruct (cp_cache e); [reflexivity |].
  destruct (Engine.py_iter (_context_processors e)) as [paths|x]; [| reflexivity].
  simpl. now destruct (Engine.import_all h paths).
Qed.

(** The loop stops at the first processor that raises; what the ones
    before it contributed is in the context. *)
Lemma run_processors_raise (request : nat) (p : PyVal) (x : PyExc) (ps2 : list PyVal)
      (ps1 : list PyVal) :
  forall (ds1 : list (gmap string PyVal)) (l : nat) (o : CtxObj) (w : World),
    Forall2 (fun q d => call_processor h q request = Ok d) ps1 ds1 ->
    call_processor h p request = Raise x ->
    w_ctxs w !! l = Some o ->
    Wrapper.run_processors h l request (ps1 ++ p :: ps2) w
    = (Raise x,
       mkWorld
         (<[l := mkCtx (is_base_context o) (overlay ds1 (ctx_items o))]> (w_ctxs w))
         (w_lazies w) (w_engines w) (w_registry w) (w_default_cache w)
         (processor_events request (ps1 ++ [p]) ++ w_log w)).
Proof.
  induction ps1 as [|q ps1 IH]; intros ds1 l o w Hds Hbad Hl.
  - apply Forall2_nil_inv_l in Hds as ->. simpl.
    unfold bind, emit, modify, lift. simpl. rewrite Hbad.
    destruct w, o; simpl in *. now rewrite insert_id.
  - apply Forall2_cons_inv_l in Hds as (d & ds & Hq & Hds & ->). simpl.
    unfold bind at 1. unfold emit, modify at 1. unfold bind at 1. unfold lift at 1.
    rewrite Hq. unfold bind at 1.
    rewrite (ctx_update_run l d o) by exact Hl.
    rewrite (IH ds l (mkCtx (is_base_context o) (d ∪ ctx_items o)))
      by (try assumption; simpl; apply lookup_insert_eq).
    simpl. rewrite insert_insert_eq. unfold processor_events. simpl.
    now rewrite <- !app_assoc.
Qed.

End ProcessorFailure.

(** X3.  When a context processor raises in a call to [render] with a
    request, [render] raises that exception: the processors after it are
    not called, no debug signal is sent and the compiled template is not
    rendered.  The caller's mapping is left half-written: it holds
    [request], [csrf_token] and the contributions of the processors
    before the one that raised. *)
Theorem X3_processor_exception_aborts_render
        (h : Host) (self : Template) (l request : nat) (o : CtxObj) (e : Jinja2)
        (w : World) (ps1 ps2 : list PyVal) (p : PyVal)
        (ds1 : list (gmap string PyVal)) (x : PyExc) :
  w_ctxs w !! l = Some o ->
  w_engines w !! backend self = Some e ->
  resolved_processors h e = Ok (ps1 ++ p :: ps2)%list ->
  Forall2 (fun q d => call_processor h q request = Ok d) ps1 ds1 ->
  call_processor h p request = Raise x ->
  exists w',
    Wrapper.render h self (Some l) (Some request) w = (Raise x, w')
    /\ events is_processor_call w'
       = (processor_events request (ps1 ++ [p]) ++ events is_processor_call w)%list
    /\ events is_signal w' = events is_signal w
    /\ events is_compiled_render w' = events is_compiled_render w
    /\ w_ctxs w' !! l
       = Some (mkCtx (is_base_context o)
                 (overlay ds1
                    (<["csrf_token" := VLazy (fresh (dom (w_lazies w)))]>
                       (<["request" := VRequest request]> (ctx_items o))))).
Proof.
  intros Hl He Hps Hds Hbad.
  unfold Wrapper.render. unfold bind at 1. unfold Wrapper.assemble.
  unfold bind at 1. unfold ret at 1. unfold bind at 1. unfold bind at 1.
  rewrite (ctx_setitem_run l _ _ o) by exact Hl.
  unfold bind at 1. unfold Wrapper.alloc_lazy at 1. unfold bind at 1.
  erewrite ctx_setitem_run by (simpl; apply lookup_insert_eq).
  unfold bind at 1.
  erewrite (context_processors_run h (backend self) e) by exact He.
  rewrite Hps.
  match goal with
  | |- context [Wrapper.run_processors h l request _ ?w1] =>
      erewrite (run_processors_raise h request p x ps2 ps1 ds1 l _ w1)
        by (try eassumption; destruct (cp_cache e); simpl; apply lookup_insert_eq)
  end.
  eexists. split; [reflexivity |].
  assert (Hfilter : forall qs log,
             List.filter is_processor_call (processor_events request qs ++ log)
             = (processor_events request qs ++ List.filter is_processor_call log)%list).
  { intros qs log. unfold processor_events. induction qs as [|q qs IH] using rev_ind.
    - reflexivity.
    - rewrite map_app, rev_app_distr. simpl. now rewrite IH. }
  assert (Hnone : forall kind qs log,
             (forall q, kind (EvProcessor q request) = false) ->
             List.filter kind (processor_events request qs ++ log)
             = List.filter kind log).
  { intros kind qs log Hk. unfold processor_events.
    induction qs as [|q qs IH] using rev_ind.
    - reflexivity.
    - rewrite map_app, rev_app_distr. simpl. now rewrite Hk, IH. }
  unfold events.
  destruct (cp_cache e); simpl;
    (split; [apply Hfilter |]); (split; [now apply Hnone |]);
    (split; [now apply Hnone |]); rewrite !insert_insert_eq; apply lookup_insert_eq.
Qed.

(** X3 on a processor that raises between two that do not. *)
Lemma X3_witness :
  let h := Faulty.host false in
  let given := [("context_processors",
                 VList [VStr "procs.user"; VStr "procs.broken"; VStr "procs.csrf"])] in
  let w := Sample.world h given {[ "a" := VStr "1" ]} in
  exists w',
    Wrapper.render h (Sample.handle true) (Some 0) (Some 7) w = (Raise Faulty.broken, w')
    /\ events is_processor_call w'
       = (processor_events 7 ([VObj "procs.user"] ++ [VObj "procs.broken"])
            ++ events is_processor_call w)%list
    /\ events is_signal w' = events is_signal w
    /\ events is_compiled_render w' = events is_compiled_render w
    /\ w_ctxs w' !! 0%nat
       = Some (mkCtx false
                 (overlay [({[ "user" := VStr "alice" ]} : gmap string PyVal)]
                    (<["csrf_token" := VLazy (fresh (dom (w_lazies w)))]>
                       (<["request" := VRequest 7]> {[ "a" := VStr "1" ]})))).
Proof.
  cbv zeta.
  refine (X3_processor_exception_aborts_render
            (Faulty.host false) (Sample.handle true) 0 7
            (mkCtx false {[ "a" := VStr "1" ]})
            (Sample.engine
               (VList [VStr "procs.user"; VStr "procs.broken"; VStr "procs.csrf"]))
            (Sample.world (Faulty.host false)
               [("context_processors",
                 VList [VStr "procs.user"; VStr "procs.broken"; VStr "procs.csrf"])]
               {[ "a" := VStr "1" ]})
            [VObj "procs.user"] [VObj "procs.csrf"] (VObj "procs.broken")
            [{[ "user" := VStr "alice" ]}] Faulty.broken eq_refl _ _ _ eq_refl).
  - vm_compute. reflexivity.
  - vm_compute. reflexivity.
  - repeat constructor.
Defined.

(** X4.  [context_processors] is resolved once: after a read that
    returned, every later read returns the same processors and leaves
    the store alone, whatever the references would resolve to by then
    (any host); a read that raises keeps nothing, the store is as
    before. *)
Theorem X4_context_processors_resolved_once
        (h : Host) (self : nat) (w w' : World) (r : Res (list PyVal)) :
  Engine.context_processors h self w = (r, w') ->
  match r with
  | Ok ps => forall h2 : Host, Engine.context_processors h2 self w' = (Ok ps, w')
  | Raise _ => w' = w
  end.
Proof.
  unfold Engine.context_processors at 1.
  unfold Engine.get_engine, bind, get_world, ret, raise, lift, modify. simpl.
  destruct (w_engines w !! self) as [e|] eqn:He; [| now intros [= <- <-]].
  destruct (cp_cache e) as [ps|] eqn:Hc.
  - intros [= <- <-] h2.
    rewrite (context_processors_run h2 self e w He).
    unfold resolved_processors. now rewrite Hc.
  - destruct (Engine.py_iter (_context_processors e)) as [paths|x];
      [| now intros [= <- <-]].
    destruct (Engine.import_all h paths) as [ps|x]; [| now intros [= <- <-]].
    intros [= <- <-] h2.
    erewrite (context_processors_run h2 self) by (simpl; apply lookup_insert_eq).
    reflexivity.
Qed.

(** X4 on a first read that resolves one reference, and a second read
    on a host where that reference would resolve no more. *)
Lemma X4_witness :
  let h := Sample.host false None in
  let w := Sample.world h [("context_processors", VList [VStr "procs.user"])] ∅ in
  let w' := snd (Engine.context_processors h 0 w) in
  let h2 := Faulty.unresolving in
  is_raise (import_string h2 "procs.user") = true
  /\ Engine.context_processors h2 0 w' = (Ok [VObj "procs.user"], w').
Proof.
  cbv zeta. split; [reflexivity |].
  exact (X4_context_processors_resolved_once
           (Sample.host false None) 0
           (Sample.world (Sample.host false None)
              [("context_processors", VList [VStr "procs.user"])] ∅)
           (snd (Engine.context_processors (Sample.host false None) 0
                   (Sample.world (Sample.host false None)
                      [("context_processors", VList [VStr "procs.user"])] ∅)))
           (Ok [VObj "procs.user"]) eq_refl Faulty.unresolving).
Defined.

(** X5.  For a name that matches, what the compiler's lookup raises
    decides what [get_template] raises: jinja2's [TemplateNotFound]
    becomes django's [TemplateDoesNotExist] whose single argument is the
    tuple of the compiler error's arguments, with its traceback; an
    exception that is neither that nor jinja2's syntax error reaches the
    caller as it is. *)
Theorem X5_lookup_errors_translated_or_passed
        (h : Host) (self : nat) (name : PyVal) (e : Jinja2) (w : World) (exc : PyExc) :
  w_engines w !! self = Some e ->
  Engine.match_template h e name = true ->
  env_get_template h (env e) name = Raise exc ->
  (exc_type exc = Jinja2_TemplateNotFound ->
   Engine.get_template h self name w
   = (Raise (mkExc TemplateDoesNotExist [VTuple (exc_args exc)] (exc_tb exc)),
      log_event (EvEnvGetTemplate name) w))
  /\ (exc_type exc <> Jinja2_TemplateNotFound ->
      exc_type exc <> Jinja2_TemplateSyntaxError ->
      Engine.get_template h self name w
      = (Raise exc, log_event (EvEnvGetTemplate name) w)).
Proof.
  intros He Hm Hlookup.
  rewrite (get_template_matched h self name e w He Hm), Hlookup. split.
  - now intros ->.
  - intros Hnf Hse. destruct (exc_type exc); congruence.
Qed.

(** X5 on a template the loader does not find. *)
Lemma X5_witness :
  let h := Faulty.host false in
  let w := Sample.world h [] ∅ in
  (exc_type Faulty.not_found = Jinja2_TemplateNotFound ->
   Engine.get_template h 0 (VStr "absent.jinja") w
   = (Raise (mkExc TemplateDoesNotExist [VTuple [VStr "absent.jinja"]]
                   ["get_template"; "jinja2.loaders"]),
      log_event (EvEnvGetTemplate (VStr "absent.jinja")) w))
  /\ (exc_type Faulty.not_found <> Jinja2_TemplateNotFound ->
      exc_type Faulty.not_found <> Jinja2_TemplateSyntaxError ->
      Engine.get_template h 0 (VStr "absent.jinja") w
      = (Raise Faulty.not_found, log_event (EvEnvGetTemplate (VStr "absent.jinja")) w)).
Proof.
  cbv zeta.
  refine (X5_lookup_errors_translated_or_passed
           (Faulty.host false) 0 (VStr "absent.jinja")
           (Sample.engine (VList []))
           (Sample.world (Faulty.host false) [] ∅) Faulty.not_found
           _ eq_refl eq_refl).
  vm_compute. reflexivity.
Defined.

(** An error of the loader itself comes through [get_template] as it is. *)
Example loader_error_passes_through :
  fst (Engine.get_template (Faulty.host false) 0 (VStr "locked.jinja")
         (Sample.world (Faulty.host false) [] ∅))
  = Raise Faulty.loader_error.
Proof. vm_compute. reflexivity. Qed.

(** X6.  [from_string] hands the source to the compiler whatever the
    engine's match rule, and does not translate what the compiler
    raises: the compiler's own exception reaches the caller, a syntax
    error under jinja2's kind, where [get_template] raises django's for
    the same exception. *)
Theorem X6_from_string_passes_compiler_errors
        (h : Host) (self : nat) (code : PyVal) (e : Jinja2) (w : World) (exc : PyExc) :
  w_engines w !! self = Some e ->
  env_from_string h (env e) code = Raise exc ->
  Engine.from_string h self code w = (Raise exc, log_event (EvEnvFromString code) w)
  /\ (exc_type exc = Jinja2_TemplateSyntaxError ->
      forall name,
        Engine.match_template h e name = true ->
        env_get_template h (env e) name = Raise exc ->
        exists exc',
          fst (Engine.get_template h self name w) = Raise exc'
          /\ exc_type exc' = TemplateSyntaxError
          /\ exc_type exc' <> exc_type exc).
Proof.
  intros He Hsrc. split.
  - unfold Engine.from_string, Engine.get_engine, bind, get_world, ret, raise,
      emit, modify, lift. simpl. now rewrite He, Hsrc.
  - intros Hty name Hm Hlookup.
    rewrite (get_template_matched h self name e w He Hm), Hlookup, Hty.
    eexists. split; [reflexivity |]. split; [reflexivity | discriminate].
Qed.

(** X6 on a source the compiler cannot parse. *)
Lemma X6_witness :
  let h := Faulty.host false in
  let w := Sample.world h [] ∅ in
  Engine.from_string h 0 (VStr "{{") w
  = (Raise Sample.syntax_error, log_event (EvEnvFromString (VStr "{{")) w)
  /\ (exc_type Sample.syntax_error = Jinja2_TemplateSyntaxError ->
      forall name,
        Sample.match_by_extension name VNone (VStr ".jinja") = true ->
        Faulty.lookup (mkEnv (VObj "jinja2.Environment")
                         (<["autoescape" := VBool true]>
                            (<["auto_reload" := VBool false]>
                               (<["extensions" := VList [VStr "jinja2.ext.do"]]>
                                  (<["loader" := VObj "jinja2.FileSystemLoader"]>
                                     (<["undefined" := jinja2_Undefined]> ∅)))))
                         ∅ ∅ ∅) name = Raise Sample.syntax_error ->
        exists exc',
          fst (Engine.get_template h 0 name w) = Raise exc'
          /\ exc_type exc' = TemplateSyntaxError
          /\ exc_type exc' <> exc_type Sample.syntax_error).
Proof.
  exact (X6_from_string_passes_compiler_errors
           (Faulty.host false) 0 (VStr "{{")
           (mkJinja2 (VStr "templates") ["/srv/templates"] (VBool false)
              (mkEnv (VObj "jinja2.Environment")
                 (<["autoescape" := VBool true]>
                    (<["auto_reload" := VBool false]>
                       (<["extensions" := VList [VStr "jinja2.ext.do"]]>
                          (<["loader" := VObj "jinja2.FileSystemLoader"]>
                             (<["undefined" := jinja2_Undefined]> ∅)))))
                 ∅ ∅ ∅)
              (VList []) VNone (VStr ".jinja") None)
           (Sample.world (Faulty.host false) [] ∅)
           Sample.syntax_error eq_refl eq_refl).
Defined.

(** ** The options of an engine *)

Section OptionFacts.
Variable h : Host.

Lemma setdefault_lookup (k : string) (v : PyVal) (m : gmap string PyVal) :
  Engine.setdefault k v m !! k = Some (default v (m !! k)).
Proof.
  unfold Engine.setdefault. destruct (m !! k) as [x|] eqn:Hk; simpl.
  - exact Hk.
  - apply lookup_insert_eq.
Qed.

Lemma forwarded_lookup_consumed (options : gmap string PyVal) (k : string) :
  k ∈ consumed_options -> forwarded_options options !! k = None.
Proof.
  intros Hk. unfold consumed_options in Hk. unfold forwarded_options.
  repeat (apply elem_of_cons in Hk as [-> | Hk]);
    try (rewrite ?lookup_delete_ne by done; apply lookup_delete_eq).
  now apply elem_of_nil in Hk.
Qed.

Lemma forwarded_lookup_other (options : gmap string PyVal) (k : string) :
  k ∉ consumed_options -> forwarded_options options !! k = options !! k.
Proof.
  intros Hk. unfold consumed_options in Hk. unfold forwarded_options.
  rewrite !not_elem_of_cons in Hk. destruct_and!.
  now rewrite !lookup_delete_ne by congruence.
Qed.

Lemma forwarded_ignores_consumed (options : gmap string PyVal) (k : string) (v : PyVal) :
  k ∈ consumed_options ->
  forwarded_options (<[k := v]> options) = forwarded_options options.
Proof.
  intros Hk. apply map_eq. intros i.
  destruct (decide (i ∈ consumed_options)) as [Hi|Hi].
  - now rewrite !forwarded_lookup_consumed.
  - rewrite !forwarded_lookup_other by exact Hi.
    apply lookup_insert_ne. intros ->. contradiction.
Qed.

(** Resolving [undefined] touches no other option. *)
Lemma resolve_undefined_other (m m' : gmap string PyVal) (k : string) :
  Engine.resolve_undefined h m = Ok m' -> k <> "undefined" -> m' !! k = m !! k.
Proof.
  intros Hrun Hk.
  assert (Hshape : exists c, m' = <["undefined" := c]> (delete "undefined" m)).
  { destruct (m !! "undefined") as [v|] eqn:Hv.
    - destruct v as [| | s | | | | | |];
        try (rewrite (resolve_undefined_value h m _ Hv) in Hrun
               by (discriminate || reflexivity);
             injection Hrun as <-; eauto).
      + rewrite resolve_undefined_default in Hrun by now rewrite Hv.
        injection Hrun as <-. eauto.
      + rewrite (resolve_undefined_string h m s Hv) in Hrun.
        destruct (utils_load_class h s) as [c|x]; [| discriminate].
        injection Hrun as <-. eauto.
    - rewrite resolve_undefined_default in Hrun by now rewrite Hv.
      injection Hrun as <-. eauto. }
  destruct Hshape as (c & ->).
  rewrite lookup_insert_ne by congruence. now apply lookup_delete_ne.
Qed.

End OptionFacts.

(** X7.  When the construction of an engine returns, the environment
    factory named by [environment] (default [jinja2.Environment]) has
    been called with the caller's options: none of the options the
    engine consumes itself reaches it; [undefined] reaches it resolved
    (the fallback class when absent or [None], the class
    [utils.load_class] gives for a string, any other value as it is);
    [loader], [extensions], [auto_reload] and [autoescape] are as given
    or, when absent, a file-system loader on the engine's template
    directories, the builtin extensions, the host's [DEBUG] and [True];
    every other option reaches it as given. *)
Theorem X7_unconsumed_options_reach_environment
        (h : Host) (params options : gmap string PyVal) (e : Jinja2) :
  Engine.dict_copy (default (VDict []) (params !! "OPTIONS")) = Ok options ->
  Engine.__init__ h params = Ok e ->
  exists cls opts env0,
    Engine.py_import_string h
      (default (VStr "jinja2.Environment") (options !! "environment")) = Ok cls
    /\ environment_call h cls opts = Ok env0
    /\ (forall k, k ∈ consumed_options -> opts !! k = None)
    /\ (forall k, k ∉ consumed_options ->
                  k ∉ ["undefined"; "loader"; "extensions"; "auto_reload"; "autoescape"] ->
                  opts !! k = options !! k)
    /\ opts !! "loader"
       = Some (default (FileSystemLoader h (template_dirs e)) (options !! "loader"))
    /\ opts !! "extensions"
       = Some (default (builtins_DEFAULT_EXTENSIONS h) (options !! "extensions"))
    /\ opts !! "auto_reload"
       = Some (default (VBool (settings_DEBUG h)) (options !! "auto_reload"))
    /\ opts !! "autoescape" = Some (default (VBool true) (options !! "autoescape"))
    /\ match default VNone (options !! "undefined") with
       | VNone => opts !! "undefined" = Some (default_undefined h)
       | VStr s => exists c, utils_load_class h s = Ok c
                             /\ opts !! "undefined" = Some c
       | v => opts !! "undefined" = Some v
       end.
Proof.
  intros Hcopy. rewrite (init_run h params options Hcopy).
  destruct (BaseEngine_init h (delete "OPTIONS" params)); [| discriminate].
  cbn [res_bind].
  destruct (Engine.resolve_undefined h (forwarded_options options)) as [options'|x]
    eqn:Hund; [| discriminate].
  cbn [res_bind].
  destruct (Engine.py_import_string h _) as [cls|x] eqn:Hcls; [| discriminate].
  cbn [res_bind].
  destruct (environment_call h cls _) as [env0|x] eqn:Hcall; [| discriminate].
  cbn [res_bind].
  repeat match goal with
         | |- res_bind ?r _ = Ok _ -> _ => destruct r; cbn [res_bind]; [| discriminate]
         end.
  intros [= <-]. simpl. exists cls. eexists _, env0.
  split; [reflexivity |]. split; [exact Hcall |].
  assert (Hfwd : forall k, k <> "undefined" ->
                           options' !! k = forwarded_options options !! k)
    by (intros k; now apply (resolve_undefined_other h)).
  assert (Hfresh : forall k, k ∈ ["loader"; "extensions"; "auto_reload"; "autoescape"] ->
                             k ∉ consumed_options).
  { intros k Hk. unfold consumed_options.
    repeat (apply elem_of_cons in Hk as [-> | Hk]);
      try (rewrite !not_elem_of_cons; repeat split; try discriminate;
           apply not_elem_of_nil).
    now apply elem_of_nil in Hk. }
  split; [| split; [| split; [| split; [| split; [| split]]]]].
  - intros k Hk.
    assert (Hne : k ∉ ["undefined"; "loader"; "extensions"; "auto_reload"; "autoescape"]).
    { unfold consumed_options in Hk.
      repeat (apply elem_of_cons in Hk as [-> | Hk]);
        try (rewrite !not_elem_of_cons; repeat split; try discriminate;
             apply not_elem_of_nil).
      now apply elem_of_nil in Hk. }
    rewrite !not_elem_of_cons in Hne. destruct_and!.
    rewrite !setdefault_other by congruence. rewrite Hfwd by congruence.
    now apply forwarded_lookup_consumed.
  - intros k Hk Hne. rewrite !not_elem_of_cons in Hne. destruct_and!.
    rewrite !setdefault_other by congruence. rewrite Hfwd by congruence.
    now apply forwarded_lookup_other.
  - rewrite !setdefault_other by done. rewrite setdefault_lookup.
    rewrite Hfwd by done. rewrite forwarded_lookup_other; [reflexivity |].
    apply Hfresh. set_solver.
  - rewrite !setdefault_other by done. rewrite setdefault_lookup.
    rewrite setdefault_other by done.
    rewrite Hfwd by done. rewrite forwarded_lookup_other; [reflexivity |].
    apply Hfresh. set_solver.
  - rewrite !setdefault_other by done. rewrite setdefault_lookup.
    rewrite !setdefault_other by done.
    rewrite Hfwd by done. rewrite forwarded_lookup_other; [reflexivity |].
    apply Hfresh. set_solver.
  - rewrite setdefault_lookup. rewrite !setdefault_other by done.
    rewrite Hfwd by done. rewrite forwarded_lookup_other; [reflexivity |].
    apply Hfresh. set_solver.
  - rewrite !setdefault_other by done.
    pose proof (forwarded_lookup_undefined options) as Hu.
    destruct (options !! "undefined") as [v|] eqn:Hv; simpl.
    + destruct v as [| | s | | | | | |];
        try (rewrite (resolve_undefined_value h _ _ Hu) in Hund
               by (discriminate || reflexivity);
             injection Hund as <-; apply lookup_insert_eq).
      * rewrite resolve_undefined_default in Hund by now rewrite Hu.
        injection Hund as <-. apply lookup_insert_eq.
      * rewrite (resolve_undefined_string h _ s Hu) in Hund.
        destruct (utils_load_class h s) as [c|x]; [| discriminate].
        injection Hund as <-. exists c. split; [reflexivity | apply lookup_insert_eq].
    + rewrite resolve_undefined_default in Hund by now rewrite Hu.
      injection Hund as <-. apply lookup_insert_eq.
Qed.

(** X7 on options that give [autoescape], an [undefined] by name, a
    [trim_blocks] the engine does not know, and a [debug] it consumes. *)
Lemma X7_witness :
  let h := Sample.host true None in
  let given := [("autoescape", VBool false); ("trim_blocks", VBool true);
                ("debug", VBool true); ("undefined", VStr "my.Undef")] in
  let options : gmap string PyVal := list_to_map given in
  exists cls opts env0,
    Engine.py_import_string h
      (default (VStr "jinja2.Environment") (options !! "environment")) = Ok cls
    /\ environment_call h cls opts = Ok env0
    /\ (forall k, k ∈ consumed_options -> opts !! k = None)
    /\ (forall k, k ∉ consumed_options ->
                  k ∉ ["undefined"; "loader"; "extensions"; "auto_reload"; "autoescape"] ->
                  opts !! k = options !! k)
    /\ opts !! "loader"
       = Some (default (FileSystemLoader h ["/srv/templates"]) (options !! "loader"))
    /\ opts !! "extensions"
       = Some (default (builtins_DEFAULT_EXTENSIONS h) (options !! "extensions"))
    /\ opts !! "auto_reload"
       = Some (default (VBool (settings_DEBUG h)) (options !! "auto_reload"))
    /\ opts !! "autoescape" = Some (default (VBool true) (options !! "autoescape"))
    /\ exists c, utils_load_class h "my.Undef" = Ok c
                 /\ opts !! "undefined" = Some c.
Proof.
  cbv zeta.
  refine (X7_unconsumed_options_reach_environment
            (Sample.host true None)
            (Sample.params [("autoescape", VBool false); ("trim_blocks", VBool true);
                            ("debug", VBool true); ("undefined", VStr "my.Undef")])
            (list_to_map [("autoescape", VBool false); ("trim_blocks", VBool true);
                          ("debug", VBool true); ("undefined", VStr "my.Undef")])
            (mkJinja2 (VStr "templates") ["/srv/templates"] (VBool true)
               (mkEnv (VObj "jinja2.Environment")
                  (<["auto_reload" := VBool true]>
                     (<["extensions" := VList [VStr "jinja2.ext.do"]]>
                        (<["loader" := VObj "jinja2.FileSystemLoader"]>
                           (<["undefined" := VObj "my.Undef"]>
                              (<["autoescape" := VBool false]>
                                 {[ "trim_blocks" := VBool true ]})))))
                  ∅ ∅ ∅)
               (VList []) VNone (VStr ".jinja") None)
            eq_refl _).
  vm_compute. reflexivity.
Defined.

(** X8.  An engine that has been constructed holds what the options
    gave for [app_dirname], [match_extension], [match_regex] and
    [debug], and where they gave nothing ["templates"], [".jinja"],
    [None] and [False]; its template directories are the base class's
    for that [app_dirname]. *)
Theorem X8_engine_attributes_given_or_default
        (h : Host) (params options : gmap string PyVal) (e : Jinja2) :
  Engine.dict_copy (default (VDict []) (params !! "OPTIONS")) = Ok options ->
  Engine.__init__ h params = Ok e ->
  app_dirname e = default (VStr "templates") (options !! "app_dirname")
  /\ Engine.match_extension e = default (VStr ".jinja") (options !! "match_extension")
  /\ _match_regex e = default VNone (options !! "match_regex")
  /\ tmpl_debug e = default (VBool false) (options !! "debug")
  /\ template_dirs e
     = BaseEngine_template_dirs h (app_dirname e) (delete "OPTIONS" params).
Proof.
  intros Hcopy. rewrite (init_run h params options Hcopy).
  repeat match goal with
         | |- res_bind ?r _ = Ok _ -> _ => destruct r; cbn [res_bind]; [| discriminate]
         end.
  intros [= <-]. repeat split.
Qed.

(** X8 on options that give a regex and nothing else. *)
Lemma X8_witness :
  let h := Sample.host false None in
  let given := [("match_regex", VStr ".*\.j2$")] in
  let e := mkJinja2 (VStr "templates") ["/srv/templates"] (VBool false)
             (mkEnv (VObj "jinja2.Environment")
                (<["autoescape" := VBool true]>
                   (<["auto_reload" := VBool false]>
                      (<["extensions" := VList [VStr "jinja2.ext.do"]]>
                         (<["loader" := VObj "jinja2.FileSystemLoader"]>
                            (<["undefined" := jinja2_Undefined]> ∅)))))
                ∅ ∅ ∅)
             (VList []) (VStr ".*\.j2$") (VStr ".jinja") None in
  app_dirname e = VStr "templates"
  /\ Engine.match_extension e = VStr ".jinja"
  /\ _match_regex e = VStr ".*\.j2$"
  /\ tmpl_debug e = VBool false
  /\ template_dirs e = ["/srv/templates"].
Proof.
  cbv zeta.
  refine (X8_engine_attributes_given_or_default
            (Sample.host false None) (Sample.params [("match_regex", VStr ".*\.j2$")])
            (list_to_map [("match_regex", VStr ".*\.j2$")]) _ eq_refl _).
  vm_compute. reflexivity.
Defined.

(** X9.  With the host's [USE_I18N] off, the translation engine is not
    imported: the construction gives the same result, engine or
    exception, whatever [translation_engine] is given. *)
Theorem X9_translation_engine_unused_without_i18n
        (h : Host) (params params' options : gmap string PyVal) (te : PyVal) :
  settings_USE_I18N h = false ->
  Engine.dict_copy (default (VDict []) (params !! "OPTIONS")) = Ok options ->
  Engine.dict_copy (default (VDict []) (params' !! "OPTIONS"))
  = Ok (<["translation_engine" := te]> options) ->
  delete "OPTIONS" params' = delete "OPTIONS" params ->
  Engine.__init__ h params' = Engine.__init__ h params.
Proof.
  intros Hoff Hcopy Hcopy' Hrest.
  rewrite (init_run h params options Hcopy), (init_run h params' _ Hcopy').
  rewrite forwarded_ignores_consumed, Hrest, Hoff.
  - now rewrite !(lookup_insert_ne _ "translation_engine") by done.
  - unfold consumed_options. set_solver.
Qed.

(** X9 on a translation engine that does not resolve. *)
Lemma X9_witness :
  Engine.__init__ (Faulty.host false)
    (Sample.params [("translation_engine", VStr "missing.translation")])
  = Engine.__init__ (Faulty.host false) (Sample.params []).
Proof.
  exact (X9_translation_engine_unused_without_i18n
           (Faulty.host false) (Sample.params [])
           (Sample.params [("translation_engine", VStr "missing.translation")])
           ∅ (VStr "missing.translation") eq_refl eq_refl eq_refl eq_refl).
Defined.

(** With i18n on, the same options stop the construction. *)
Example translation_engine_imported_with_i18n :
  Engine.__init__ (Faulty.host true)
    (Sample.params [("translation_engine", VStr "missing.translation")])
  = Raise (Sample.import_error "missing.translation")
  /\ is_raise (Engine.__init__ (Faulty.host true) (Sample.params [])) = false.
Proof. split; vm_compute; reflexivity. Qed.

(** ** What installing the builtins leaves alone *)

Section BuiltinFrame.
Variable h : Host.

Lemma initialize_builtins_frame (e e' : Env) (filters tests globals constants : PyVal) :
  Engine._initialize_builtins h e filters tests globals constants = Ok e' ->
  env_cls e' = env_cls e /\ env_options e' = env_options e.
Proof.
  unfold Engine._initialize_builtins. intros Hrun.
  destruct (if truthy filters then _ else _) as [e1|x] eqn:H1; [| discriminate].
  simpl in Hrun.
  destruct (if truthy tests then _ else _) as [e2|x] eqn:H2; [| discriminate].
  simpl in Hrun.
  destruct (if truthy globals then _ else _) as [e3|x] eqn:H3; [| discriminate].
  simpl in Hrun.
  apply (table_phase h filters (env_filters e) (Engine.with_filters e)) in H1
    as (df & -> & _); [| now destruct e].
  apply (table_phase h tests _ (Engine.with_tests _)) in H2
    as (dt & -> & _); [| reflexivity].
  apply (table_phase h globals _ (Engine.with_globals _)) in H3
    as (dg & -> & _); [| reflexivity].
  destruct (truthy constants).
  - destruct (Engine.items constants); simpl in Hrun; [| discriminate].
    now injection Hrun as <-.
  - now injection Hrun as <-.
Qed.

(** A table leaves the names it does not bind as they were. *)
Lemma table_result_other (table : PyVal) (data d : gmap string PyVal) (name : string) :
  match table with
  | VDict l => Engine.insert_all h data l = Ok d
  | _ => d = data
  end ->
  name ∉ table_keys table -> d !! name = data !! name.
Proof.
  destruct table; simpl; try (now intros ->).
  intros Hrun Hnot. now apply (insert_all_other h items).
Qed.

End BuiltinFrame.

(** X10.  When [_initialize_builtins] has returned, the environment is
    as it was but for the names the tables bind: a filter, test or
    global whose name is in no table given for its name space is
    untouched (the constants count for the globals), and so are the
    environment's class and options.  An entry of [filters], [tests] or
    [globals] that is not a string is installed as the value it is (a
    global, unless a constant has its name). *)
Theorem X10_builtins_touch_only_named_entries
        (h : Host) (e e' : Env) (filters tests globals constants : PyVal) :
  Engine._initialize_builtins h e filters tests globals constants = Ok e' ->
  env_cls e' = env_cls e /\ env_options e' = env_options e
  /\ (forall name, name ∉ table_keys filters ->
                   env_filters e' !! name = env_filters e !! name)
  /\ (forall name, name ∉ table_keys tests ->
                   env_tests e' !! name = env_tests e !! name)
  /\ (forall name, name ∉ table_keys globals -> name ∉ table_keys constants ->
                   env_globals e' !! name = env_globals e !! name)
  /\ (forall l name v,
        filters = VDict l -> NoDup l.*1 -> (name, v) ∈ l -> is_string v = false ->
        env_filters e' !! name = Some v)
  /\ (forall l name v,
        tests = VDict l -> NoDup l.*1 -> (name, v) ∈ l -> is_string v = false ->
        env_tests e' !! name = Some v)
  /\ (forall l name v,
        globals = VDict l -> NoDup l.*1 -> (name, v) ∈ l -> is_string v = false ->
        name ∉ table_keys constants ->
        env_globals e' !! name = Some v).
Proof.
  intros Hrun.
  destruct (initialize_builtins_frame h _ _ _ _ _ _ Hrun) as (Hcls & Hopts).
  apply initialize_builtins_ok in Hrun
    as (df & dt & dg & Hf & Ht & Hg & Hef & Het & Heg).
  assert (Hconst : forall name, name ∉ table_keys constants ->
                                env_globals e' !! name = dg !! name).
  { intros name Hnot. rewrite Heg. destruct constants; try reflexivity.
    now apply assign_all_other. }
  split; [exact Hcls |]. split; [exact Hopts |].
  split; [| split; [| split; [| split; [| split]]]].
  - intros name Hnot. rewrite Hef. now apply (table_result_other h filters).
  - intros name Hnot. rewrite Het. now apply (table_result_other h tests).
  - intros name Hg' Hc'. rewrite Hconst by exact Hc'.
    now apply (table_result_other h globals).
  - intros l name v -> Hnd Hin Hns. rewrite Hef.
    exact (insert_all_value h l _ df name v Hnd Hf Hin Hns).
  - intros l name v -> Hnd Hin Hns. rewrite Het.
    exact (insert_all_value h l _ dt name v Hnd Ht Hin Hns).
  - intros l name v -> Hnd Hin Hns Hc'. rewrite Hconst by exact Hc'.
    exact (insert_all_value h l _ dg name v Hnd Hg Hin Hns).
Qed.

(** X10 on an environment that has a filter of its own. *)
Lemma X10_witness :
  let h := Sample.host false None in
  let e := mkEnv (VObj "jinja2.Environment") {[ "autoescape" := VBool true ]}
                 {[ "upper" := VObj "jinja2.filters.do_upper" ]} ∅ ∅ in
  let filters := VDict [("markdown", VObj "markdown.markdown")] in
  let e' := mkEnv (VObj "jinja2.Environment") {[ "autoescape" := VBool true ]}
                  (<["markdown" := VObj "markdown.markdown"]>
                     {[ "upper" := VObj "jinja2.filters.do_upper" ]}) ∅ ∅ in
  env_cls e' = env_cls e /\ env_options e' = env_options e
  /\ (forall name, name ∉ table_keys filters ->
                   env_filters e' !! name = env_filters e !! name)
  /\ (forall name, name ∉ table_keys VNone ->
                   env_tests e' !! name = env_tests e !! name)
  /\ (forall name, name ∉ table_keys VNone -> name ∉ table_keys VNone ->
                   env_globals e' !! name = env_globals e !! name)
  /\ (forall l name v,
        filters = VDict l -> NoDup l.*1 -> (name, v) ∈ l -> is_string v = false ->
        env_filters e' !! name = Some v)
  /\ (forall l name v,
        VNone = VDict l -> NoDup l.*1 -> (name, v) ∈ l -> is_string v = false ->
        env_tests e' !! name = Some v)
  /\ (forall l name v,
        VNone = VDict l -> NoDup l.*1 -> (name, v) ∈ l -> is_string v = false ->
        name ∉ table_keys VNone ->
        env_globals e' !! name = Some v).
Proof.
  cbv zeta.
  refine (X10_builtins_touch_only_named_entries
            (Sample.host false None)
            (mkEnv (VObj "jinja2.Environment") {[ "autoescape" := VBool true ]}
                   {[ "upper" := VObj "jinja2.filters.do_upper" ]} ∅ ∅)
            _ (VDict [("markdown", VObj "markdown.markdown")]) VNone VNone VNone _).
  vm_compute. reflexivity.
Defined.

(** ** More on the registry *)

(** X11.  A call to [get_default] that raises is not memoized: it
    raised one of the two configuration errors, and the next call looks
    at the configured engines again and returns the engine if by then
    exactly one [Jinja2] engine is configured (one instance, among any
    other backends), no [setting_changed] needed. *)
Theorem X11_get_default_failure_not_memoized (w w' : World) (x : PyExc) :
  Registry.get_default w = (Raise x, w') ->
  exc_type x = ImproperlyConfigured
  /\ forall (before after : list EngineEntry) (e : nat),
       Forall (fun y => Registry.is_Jinja2 y = false) before ->
       Forall (fun y => Registry.is_Jinja2 y = false) after ->
       Registry.get_default (set_registry (before ++ EJinja2 e :: after) w')
       = (Ok e, set_default_cache (Some e)
                  (log_event EvEnginesAll
                     (set_registry (before ++ EJinja2 e :: after) w'))).
Proof.
  intros Hrun. split.
  - revert Hrun. unfold Registry.get_default.
    destruct (w_default_cache w); [discriminate |].
    unfold Registry.get_default_body, Registry.engines_all, bind, emit, modify,
      get_world, ret, raise. simpl.
    destruct (Registry.jinja_engines (w_registry w)) as [|a [|b l]]; simpl.
    + now intros [= <- <-].
    + discriminate.
    + now intros [= <- <-].
  - intros before after e Hb Ha. apply get_default_one.
    + simpl. eapply get_default_raise_keeps, Hrun.
    + simpl. now apply jinja_engines_single.
Qed.

(** X11 on a registry that holds the django backend only, to which a
    Jinja2 engine is then added. *)
Lemma X11_witness :
  let w := set_registry [EOther "django"] empty_world in
  let w' := log_event EvEnginesAll w in
  Registry.get_default w = (Raise Registry.no_backend, w')
  /\ exc_type Registry.no_backend = ImproperlyConfigured
  /\ Registry.get_default (set_registry [EOther "django"; EJinja2 4] w')
     = (Ok 4, set_default_cache (Some 4)
                (log_event EvEnginesAll
                   (set_registry [EOther "django"; EJinja2 4] w'))).
Proof.
  cbv zeta. split; [reflexivity |]. split.
  - exact (proj1 (X11_get_default_failure_not_memoized
                    (set_registry [EOther "django"] empty_world)
                    (log_event EvEnginesAll (set_registry [EOther "django"] empty_world))
                    Registry.no_backend eq_refl)).
  - refine (proj2 (X11_get_default_failure_not_memoized
                     (set_registry [EOther "django"] empty_world)
                     (log_event EvEnginesAll (set_registry [EOther "django"] empty_world))
                     Registry.no_backend eq_refl)
              [EOther "django"] [] 4 _ _); repeat constructor.
Defined.

(** X12.  Engines of other backends do not count: with exactly one
    [Jinja2] engine among any number of others, before and after it,
    [get_default] returns that engine. *)
Theorem X12_other_backends_do_not_count
        (w : World) (before after : list EngineEntry) (e : nat) :
  w_default_cache w = None ->
  w_registry w = (before ++ EJinja2 e :: after)%list ->
  Forall (fun x => Registry.is_Jinja2 x = false) before ->
  Forall (fun x => Registry.is_Jinja2 x = false) after ->
  Registry.get_default w
  = (Ok e, set_default_cache (Some e) (log_event EvEnginesAll w)).
Proof.
  intros Hc Hreg Hb Ha. apply get_default_one; [exact Hc |].
  rewrite Hreg.
  assert (Happ : Registry.jinja_engines (before ++ EJinja2 e :: after)
                 = (Registry.jinja_engines before
                      ++ e :: Registry.jinja_engines after)%list)
    by (unfold Registry.jinja_engines; now rewrite omap_app).
  now rewrite Happ, (jinja_engines_others before Hb), (jinja_engines_others after Ha).
Qed.

(** X12 on a django engine, the jinja2 one and a third. *)
Lemma X12_witness :
  Registry.get_default
    (set_registry [EOther "django"; EJinja2 4; EOther "mako"] empty_world)
  = (Ok 4, set_default_cache (Some 4)
             (log_event EvEnginesAll
                (set_registry [EOther "django"; EJinja2 4; EOther "mako"] empty_world))).
Proof.
  refine (X12_other_backends_do_not_count
            (set_registry [EOther "django"; EJinja2 4; EOther "mako"] empty_world)
            [EOther "django"] [EOther "mako"] 4 eq_refl eq_refl _ _);
    repeat constructor.
Defined.

(** X13.  A handle in debug mode sends [template_rendered] with a
    context of its own making: for a plain dict a new object holding the
    same pairs, never the caller's dict; for a [BaseContext] the
    caller's object itself.  The caller's mapping is as it was. *)
Theorem X13_debug_signal_carries_copy_of_dict
        (h : Host) (self : Template) (l : nat) (o : CtxObj) (w : World) :
  truthy (_debug self) = true ->
  w_ctxs w !! l = Some o ->
  exists l' w',
    Wrapper.render h self (Some l) None w
    = (compiled_render h (template self) (ctx_items o), w')
    /\ events is_signal w' = EvTemplateRendered self self l' :: events is_signal w
    /\ (if is_base_context o
        then l' = l
        else l' <> l /\ w_ctxs w !! l' = None
             /\ w_ctxs w' !! l' = Some (mkCtx false (ctx_items o)))
    /\ w_ctxs w' !! l = Some o.
Proof.
  intros Hon Hl. unfold Wrapper.render. unfold bind at 1.
  rewrite assemble_no_request. unfold Wrapper.debug_signal. rewrite Hon.
  unfold bind at 1. unfold bind at 1. rewrite (read_ctx_run l o) by exact Hl.
  destruct (is_base_context o) eqn:Hbase.
  - unfold bind, ret, emit, modify, lift, Wrapper.read_ctx. simpl. rewrite Hl.
    exists l. eexists. split; [reflexivity |]. simpl. auto.
  - unfold bind, ret, emit, modify, lift, Wrapper.read_ctx, Wrapper.alloc_ctx.
    simpl. rewrite lookup_insert_eq. simpl.
    exists (fresh (dom (w_ctxs w))). eexists. split; [reflexivity |]. simpl.
    assert (Hne : fresh (dom (w_ctxs w)) <> l)
      by (intros Heq; symmetry in Heq; revert Heq; now apply fresh_ctx_other with o).
    split; [reflexivity |]. split.
    + split; [exact Hne |]. split; [apply fresh_ctx_free | apply lookup_insert_eq].
    + now rewrite lookup_insert_ne.
Qed.

(** X13 on a plain dict. *)
Lemma X13_witness :
  let h := Sample.host false None in
  let w := Sample.world h [] {[ "a" := VStr "1" ]} in
  let self := Sample.handle true in
  exists l' w',
    Wrapper.render h self (Some 0) None w = (Ok (VStr "<html>"), w')
    /\ events is_signal w' = EvTemplateRendered self self l' :: events is_signal w
    /\ (l' <> 0%nat /\ w_ctxs w !! l' = None
        /\ w_ctxs w' !! l' = Some (mkCtx false {[ "a" := VStr "1" ]}))
    /\ w_ctxs w' !! 0%nat = Some (mkCtx false {[ "a" := VStr "1" ]}).
Proof.
  exact (X13_debug_signal_carries_copy_of_dict
           (Sample.host false None) (Sample.handle true) 0
           (mkCtx false {[ "a" := VStr "1" ]})
           (Sample.world (Sample.host false None) [] {[ "a" := VStr "1" ]})
           eq_refl eq_refl).
Defined.
